(** * SMLGOAPI client scripts: a shallow embedding and its properties

    The development embeds the two client classes of the repository,

    - [SMLGOAPIAgent] of [ai_agent_example.py] (capability discovery, the
      command dispatcher, the scripted demonstration and the interactive
      loop), and
    - [ThaiAdminAPI] of [thai_admin_demo.py] (the three-level
      province / amphure / tambon client),

    as functions in a small state-and-exception monad.  The state is the
    object itself ([self]) together with the observable world: the log of the
    HTTP requests that were sent and the lines that were printed.  The HTTP
    service is an oracle that answers each request from the history of the
    requests before it, so a statement that holds for every oracle holds for
    every behaviour of the service.

    Conventions of the embedding:

    - a value obtained from [response.json()] is a [value]; Python's [None]
      is [VNone]; a [dict] is an association list in insertion order (the
      order is printed by [list(self.endpoints.keys())]);
    - a [print] of an f-string is recorded as a [line]: the template of the
      f-string (without its leading pictogram) and the values of its fields
      in order, so no number is ever rendered to text;
    - a format field [{x:.2f}] raises on a value that is no number, exactly
      as in Python; a plain field [{x}] never raises;
    - line 182 of [ai_agent_example.py] ([print()]) is indented by ten
      columns, which matches no enclosing block; it is read at the level of
      the method body, after the loop, like every other [print()] that
      separates two steps of the demonstration. *)

From Stdlib Require Import String Ascii List ZArith Bool Lia DecimalString.
Import ListNotations.
Local Open Scope string_scope.

(** ** Python values and the built-ins the scripts use *)

Module Py.

(** What [json.loads] can return, which is also all the scripts build. A
    float is kept as the decimal literal [m * 10^e] of the JSON text. *)
#[warnings="-register-all"]
Inductive value : Type :=
| VNone
| VBool (b : bool)
| VInt (n : Z)
| VFloat (m e : Z)
| VStr (s : string)
| VList (xs : list value)
| VDict (kvs : list (string * value)).

Inductive exn_class : Type :=
| ConnectionError      (* requests.get / requests.post could not complete *)
| HTTPError            (* response.raise_for_status() *)
| JSONDecodeError      (* response.json() *)
| AttributeError
| TypeError
| ValueError
| KeyError
| IndexError
| KeyboardInterrupt.   (* derives from BaseException, not from Exception *)

(** An exception: its class and [str(e)]. *)
Record exn : Type := Exn { exn_class_of : exn_class; str : string }.

(** [isinstance(e, Exception)], what [except Exception] tests. *)
Definition is_Exception (e : exn) : bool :=
  match exn_class_of e with
  | KeyboardInterrupt => false
  | _ => true
  end.

Definition type_name (v : value) : string :=
  match v with
  | VNone => "NoneType"
  | VBool _ => "bool"
  | VInt _ => "int"
  | VFloat _ _ => "float"
  | VStr _ => "str"
  | VList _ => "list"
  | VDict _ => "dict"
  end.

(** [bool(v)], the test of [if v:]. *)
Definition truthy (v : value) : bool :=
  match v with
  | VNone => false
  | VBool b => b
  | VInt n => negb (n =? 0)%Z
  | VFloat m _ => negb (m =? 0)%Z
  | VStr s => negb (s =? "")
  | VList xs => match xs with [] => false | _ => true end
  | VDict kvs => match kvs with [] => false | _ => true end
  end.

Definition isinstance_dict (v : value) : bool :=
  match v with VDict _ => true | _ => false end.

Definition isinstance_list (v : value) : bool :=
  match v with VList _ => true | _ => false end.

Fixpoint lookup (k : string) (kvs : list (string * value)) : option value :=
  match kvs with
  | [] => None
  | (k', v) :: rest => if k' =? k then Some v else lookup k rest
  end.

Definition no_attribute (v : value) (attr : string) : exn :=
  Exn AttributeError
      ("'" ++ type_name v ++ "' object has no attribute '" ++ attr ++ "'").

(** [v.get(k, default)]: only a [dict] has the method. *)
Definition get (v : value) (k : string) (default : value) : exn + value :=
  match v with
  | VDict kvs =>
      inr (match lookup k kvs with Some x => x | None => default end)
  | _ => inl (no_attribute v "get")
  end.

(** [v.keys()] turned into a list. *)
Definition keys (v : value) : exn + list value :=
  match v with
  | VDict kvs => inr (map (fun kv => VStr (fst kv)) kvs)
  | _ => inl (no_attribute v "keys")
  end.

Fixpoint chars (s : string) : list value :=
  match s with
  | EmptyString => []
  | String c rest => VStr (String c EmptyString) :: chars rest
  end.

(** [len(v)]. *)
Definition len (v : value) : exn + nat :=
  match v with
  | VStr s => inr (String.length s)
  | VList xs => inr (List.length xs)
  | VDict kvs => inr (List.length kvs)
  | _ => inl (Exn TypeError
                  ("object of type '" ++ type_name v ++ "' has no len()"))
  end.

Definition not_subscriptable (v : value) : exn :=
  Exn TypeError ("'" ++ type_name v ++ "' object is not subscriptable").

(** [v[:n]].  A [dict] is subscriptable, but a slice is no key of it: up to
    Python 3.11 the slice is unhashable ([TypeError]); from 3.12 on it is
    hashable and missing ([KeyError]).  Both are caught alike by the
    scripts; the older message is the one modelled. *)
Definition slice_to (v : value) (n : nat) : exn + value :=
  match v with
  | VList xs => inr (VList (firstn n xs))
  | VStr s => inr (VStr (substring 0 n s))
  | VDict _ => inl (Exn TypeError "unhashable type: 'slice'")
  | _ => inl (not_subscriptable v)
  end.

(** [v[0]].  The keys of a JSON object are strings, so [0] is never one. *)
Definition item0 (v : value) : exn + value :=
  match v with
  | VList (x :: _) => inr x
  | VList [] => inl (Exn IndexError "list index out of range")
  | VStr (String c _) => inr (VStr (String c EmptyString))
  | VStr EmptyString => inl (Exn IndexError "string index out of range")
  | VDict _ => inl (Exn KeyError "0")
  | _ => inl (not_subscriptable v)
  end.

(** The elements a [for] loop over [v] visits. *)
Definition iter (v : value) : exn + list value :=
  match v with
  | VList xs => inr xs
  | VStr s => inr (chars s)
  | VDict kvs => inr (map (fun kv => VStr (fst kv)) kvs)
  | _ => inl (Exn TypeError
                  ("'" ++ type_name v ++ "' object is not iterable"))
  end.

(** The format field [{v:.2f}]: numbers (and [bool], a subclass of [int])
    are formatted, anything else raises. *)
Definition format_2f (v : value) : exn + value :=
  match v with
  | VBool _ | VInt _ | VFloat _ _ => inr v
  | VStr _ =>
      inl (Exn ValueError "Unknown format code 'f' for object of type 'str'")
  | _ =>
      inl (Exn TypeError
               ("unsupported format string passed to " ++ type_name v
                ++ ".__format__"))
  end.

(** [v == s] for a string literal [s]. *)
Definition eq_str (v : value) (s : string) : bool :=
  match v with
  | VStr s' => s' =? s
  | _ => false
  end.

(** [str.lower()] and [str.strip()], on ASCII. *)
Definition lower_ascii (c : ascii) : ascii :=
  let n := nat_of_ascii c in
  if andb (65 <=? n)%nat (n <=? 90)%nat then ascii_of_nat (n + 32) else c.

Fixpoint lower (s : string) : string :=
  match s with
  | EmptyString => EmptyString
  | String c rest => String (lower_ascii c) (lower rest)
  end.

Definition is_space (c : ascii) : bool :=
  let n := nat_of_ascii c in
  orb (andb (9 <=? n)%nat (n <=? 13)%nat)
      (andb (28 <=? n)%nat (n <=? 32)%nat).

Fixpoint lstrip (s : string) : string :=
  match s with
  | String c rest => if is_space c then lstrip rest else s
  | EmptyString => EmptyString
  end.

Fixpoint rstrip (s : string) : string :=
  match s with
  | EmptyString => EmptyString
  | String c rest =>
      match rstrip rest with
      | EmptyString => if is_space c then EmptyString else String c EmptyString
      | rest' => String c rest'
      end
  end.

Definition strip (s : string) : string := rstrip (lstrip s).

(** [s.startswith(p)] and [s[n:]]. *)
Definition startswith (s p : string) : bool := prefix p s.

Fixpoint drop (n : nat) (s : string) : string :=
  match n, s with
  | O, _ => s
  | S n', String _ rest => drop n' rest
  | S _, EmptyString => EmptyString
  end.

End Py.

(** ** The HTTP transport

    The scripts reach the service through the requests library, which is no
    part of the repository.  What they rely on is modelled here: a call
    raises or delivers a response, [raise_for_status] raises on a status in
    400..599, and [json] raises on a body that is no JSON. *)

Module Http.
Import Py.

Inductive method : Type := GET | POST.

Record request : Type := Request {
  meth : method;
  url : string;
  headers : list (string * string);
  payload : option value          (* the [json=] argument *)
}.

(** The body of a response: JSON text, or text [response.json()] rejects
    with the given reason. *)
Inductive body : Type :=
| Json (v : value)
| NotJson (why : string).

Record response : Type := Response {
  status_code : Z;
  reason : string;
  content : body
}.

(** What the transport does with a request: it raises (connection refused,
    timeout, ...) with the text [msg], or it delivers a response. *)
Inductive reply : Type :=
| Unreachable (msg : string)
| Answered (r : response).

(** The service: the reply to a request, given the requests sent before it
    (oldest first). *)
Definition service : Type := list request -> request -> reply.

Definition string_of_Z (z : Z) : string := NilZero.string_of_int (Z.to_int z).

(** [response.raise_for_status()] of the requests library: an [HTTPError]
    for a status in 400..599, with the library's message. *)
Definition http_error (r : response) (u : string) : option exn :=
  if andb (400 <=? status_code r)%Z (status_code r <? 500)%Z then
    Some (Exn HTTPError (string_of_Z (status_code r) ++ " Client Error: "
                         ++ reason r ++ " for url: " ++ u))
  else if andb (500 <=? status_code r)%Z (status_code r <? 600)%Z then
    Some (Exn HTTPError (string_of_Z (status_code r) ++ " Server Error: "
                         ++ reason r ++ " for url: " ++ u))
  else None.

(** [response.json()]: the decoder's message is followed by the position
    (always the first character here; only its presence matters). *)
Definition decode (r : response) : exn + value :=
  match content r with
  | Json v => inr v
  | NotJson why =>
      inl (Exn JSONDecodeError (why ++ ": line 1 column 1 (char 0)"))
  end.

(** The three ways a transport call fails: no response, an error status,
    a body that is not JSON. *)
Definition transport_failure (u : string) (rp : reply) : Prop :=
  match rp with
  | Unreachable _ => True
  | Answered r =>
      http_error r u <> None \/ (exists why, content r = NotJson why)
  end.

End Http.

(** ** The monad of the scripts: [self], the world, exceptions *)

Module Run.
Import Py Http.

(** A printed line: the template of the f-string and its field values. *)
Record line : Type := Line { template : string; fields : list value }.

Record world : Type := World {
  sent : list request;     (* oldest first *)
  printed : list line      (* oldest first *)
}.

Definition fresh : world := World [] [].

Inductive outcome (A : Type) : Type :=
| Ret (a : A)
| Raise (e : exn)
| Diverge.               (* the loop never ends *)
Arguments Ret {A} a.
Arguments Raise {A} e.
Arguments Diverge {A}.

Definition M (S A : Type) : Type := S -> world -> outcome A * S * world.

Section Ops.
Variable net : service.
Context {S : Type}.

Definition ret {A} (a : A) : M S A := fun s w => (Ret a, s, w).

Definition bind {A B} (m : M S A) (k : A -> M S B) : M S B :=
  fun s w =>
    match m s w with
    | (Ret a, s', w') => k a s' w'
    | (Raise e, s', w') => (Raise e, s', w')
    | (Diverge, s', w') => (Diverge, s', w')
    end.

Definition raise {A} (e : exn) : M S A := fun s w => (Raise e, s, w).

Definition diverge {A} : M S A := fun s w => (Diverge, s, w).

Definition lift {A} (x : exn + A) : M S A :=
  match x with
  | inl e => raise e
  | inr a => ret a
  end.

Definition self : M S S := fun s w => (Ret s, s, w).

Definition update (f : S -> S) : M S unit := fun s w => (Ret tt, f s, w).

Definition print (t : string) (fs : list value) : M S unit :=
  fun s w => (Ret tt, s, World (sent w) (printed w ++ [Line t fs])).

(** One transport call: the request is logged, then the service replies. *)
Definition send (r : request) : M S response :=
  fun s w =>
    let w' := World (sent w ++ [r]) (printed w) in
    match net (sent w) r with
    | Unreachable msg => (Raise (Exn ConnectionError msg), s, w')
    | Answered resp => (Ret resp, s, w')
    end.

Definition raise_for_status (r : response) (u : string) : M S unit :=
  match http_error r u with
  | Some e => raise e
  | None => ret tt
  end.

(** [try: m except ...]: [h e] is the handler of the first clause that
    matches [e], if any; an exception of a handler is not caught. *)
Definition try_ {A} (m : M S A) (h : exn -> option (M S A)) : M S A :=
  fun s w =>
    match m s w with
    | (Raise e, s', w') =>
        match h e with
        | Some k => k s' w'
        | None => (Raise e, s', w')
        end
    | r => r
    end.

(** The clause [except Exception as e]. *)
Definition except_Exception {A} (k : exn -> M S A) (e : exn)
  : option (M S A) :=
  if is_Exception e then Some (k e) else None.

End Ops.

Declare Scope run_scope.
Delimit Scope run_scope with run.
Notation "x <- m ;; k" := (bind m (fun x => k))
  (at level 61, m at next level, right associativity) : run_scope.
Notation "m ;;; k" := (bind m (fun _ => k))
  (at level 61, right associativity) : run_scope.

(** [for x in xs: body x]. *)
Fixpoint for_each {S A} (xs : list A) (body : A -> M S unit) : M S unit :=
  match xs with
  | [] => ret tt
  | x :: rest => bind (body x) (fun _ => for_each rest body)
  end.

End Run.

(** ** [ai_agent_example.py]: class [SMLGOAPIAgent] *)

Module Agent.
Import Py Http Run.
Local Open Scope run_scope.

Record SMLGOAPIAgent : Type := Self {
  base_url : string;
  guide_data : value;
  endpoints : value
}.

(** [__init__]. *)
Definition init (url : string) : SMLGOAPIAgent := Self url VNone VNone.

Definition default_url : string := "http://localhost:8008".

Definition set_guide_data (g : value) (s : SMLGOAPIAgent) : SMLGOAPIAgent :=
  Self (base_url s) g (endpoints s).

Definition set_endpoints (e : value) (s : SMLGOAPIAgent) : SMLGOAPIAgent :=
  Self (base_url s) (guide_data s) e.

Definition json_headers : list (string * string) :=
  [("Content-Type", "application/json")].

(** The dictionary every dispatcher method returns from its handler. *)
Definition failure (e : exn) : value :=
  VDict [("success", VBool false); ("error", VStr (str e))].

Section Methods.
Variable net : service.

Local Abbreviation M := (Run.M SMLGOAPIAgent).

Definition requests_get (u : string) : M response :=
  send net (Request GET u [] None).

Definition requests_post (u : string) (json : value)
           (hdrs : list (string * string)) : M response :=
  send net (Request POST u hdrs (Some json)).

Definition discover_api : M bool :=
  try_
    (print "Discovering API capabilities..." [] ;;;
     s <- self ;;
     response <- requests_get (base_url s ++ "/guide") ;;
     raise_for_status response (base_url s ++ "/guide") ;;;
     g <- lift (decode response) ;;
     update (set_guide_data g) ;;;
     s <- self ;;
     e <- lift (get (guide_data s) "endpoints" (VDict [])) ;;
     update (set_endpoints e) ;;;
     print "API Discovery successful!" [] ;;;
     s <- self ;;
     name <- lift (get (guide_data s) "api_name" VNone) ;;
     print "   API Name: {}" [name] ;;;
     version <- lift (get (guide_data s) "version" VNone) ;;
     print "   Version: {}" [version] ;;;
     ks <- lift (keys (endpoints s)) ;;
     print "   Available Endpoints: {}" [VList ks] ;;;
     ret true)
    (except_Exception (fun e =>
       print "API Discovery failed: {}" [VStr (str e)] ;;;
       ret false)).

Definition check_health : M bool :=
  try_
    (print "Checking API health..." [] ;;;
     s <- self ;;
     response <- requests_get (base_url s ++ "/health") ;;
     raise_for_status response (base_url s ++ "/health") ;;;
     health_data <- lift (decode response) ;;
     status <- lift (get health_data "status" VNone) ;;
     print "API Health: {}" [status] ;;;
     database <- lift (get health_data "database" VNone) ;;
     print "   Database: {}" [database] ;;;
     version <- lift (get health_data "version" VNone) ;;
     print "   Version: {}" [version] ;;;
     status <- lift (get health_data "status" VNone) ;;
     ret (eq_str status "healthy"))
    (except_Exception (fun e =>
       print "Health check failed: {}" [VStr (str e)] ;;;
       ret false)).

Definition execute_command (sql_command : string) : M value :=
  try_
    (print "Executing command: {}..." [VStr (substring 0 50 sql_command)] ;;;
     s <- self ;;
     response <- requests_post (base_url s ++ "/command")
                   (VDict [("query", VStr sql_command)]) json_headers ;;
     raise_for_status response (base_url s ++ "/command") ;;;
     result <- lift (decode response) ;;
     ok <- lift (get result "success" VNone) ;;
     if truthy ok then
       d <- lift (get result "duration_ms" (VInt 0)) ;;
       d <- lift (format_2f d) ;;
       print "Command executed successfully in {:.2f}ms" [d] ;;;
       ret result
     else
       err <- lift (get result "error" VNone) ;;
       print "Command failed: {}" [err] ;;;
       ret result)
    (except_Exception (fun e =>
       print "Command execution failed: {}" [VStr (str e)] ;;;
       ret (failure e))).

Definition execute_select (sql_query : string) : M value :=
  try_
    (print "Executing query: {}..." [VStr (substring 0 50 sql_query)] ;;;
     s <- self ;;
     response <- requests_post (base_url s ++ "/select")
                   (VDict [("query", VStr sql_query)]) json_headers ;;
     raise_for_status response (base_url s ++ "/select") ;;;
     result <- lift (decode response) ;;
     ok <- lift (get result "success" VNone) ;;
     if truthy ok then
       row_count <- lift (get result "row_count" (VInt 0)) ;;
       duration <- lift (get result "duration_ms" (VInt 0)) ;;
       duration <- lift (format_2f duration) ;;
       print "Query executed successfully: {} rows in {:.2f}ms"
             [row_count; duration] ;;;
       ret result
     else
       err <- lift (get result "error" VNone) ;;
       print "Query failed: {}" [err] ;;;
       ret result)
    (except_Exception (fun e =>
       print "Query execution failed: {}" [VStr (str e)] ;;;
       ret (failure e))).

Definition search_products (search_term : string) (limit : Z) : M value :=
  try_
    (print "Searching products: '{}' (limit: {})"
           [VStr search_term; VInt limit] ;;;
     s <- self ;;
     response <- requests_post (base_url s ++ "/search")
                   (VDict [("query", VStr search_term); ("limit", VInt limit)])
                   json_headers ;;
     raise_for_status response (base_url s ++ "/search") ;;;
     result <- lift (decode response) ;;
     ok <- lift (get result "success" VNone) ;;
     if truthy ok then
       metadata <- lift (get result "metadata" (VDict [])) ;;
       total_found <- lift (get metadata "total_found" (VInt 0)) ;;
       metadata <- lift (get result "metadata" (VDict [])) ;;
       duration <- lift (get metadata "duration_ms" (VInt 0)) ;;
       duration <- lift (format_2f duration) ;;
       print "Search completed: {} products found in {:.2f}ms"
             [total_found; duration] ;;;
       ret result
     else
       err <- lift (get result "error" VNone) ;;
       print "Search failed: {}" [err] ;;;
       ret result)
    (except_Exception (fun e =>
       print "Search failed: {}" [VStr (str e)] ;;;
       ret (failure e))).

(** The default of [limit]. *)
Definition search_products_default (search_term : string) : M value :=
  search_products search_term 10.

Definition get_database_tables : M value :=
  try_
    (print "Getting database tables..." [] ;;;
     s <- self ;;
     response <- requests_get (base_url s ++ "/api/tables") ;;
     raise_for_status response (base_url s ++ "/api/tables") ;;;
     tables <- lift (decode response) ;;
     n <- lift (len tables) ;;
     print "Found {} tables" [VInt (Z.of_nat n)] ;;;
     ret tables)
    (except_Exception (fun e =>
       print "Failed to get tables: {}" [VStr (str e)] ;;;
       ret (VList []))).

(** One numbered line of the best-practices list. *)
Definition print_practice (ip : nat * value) : M unit :=
  print "   {}. {}" [VInt (Z.of_nat (fst ip)); snd ip].

(** The body of the loop over [table_data[:5]]. *)
Definition print_table (table : value) : M unit :=
  if isinstance_dict table then
    name <- lift (get table "name" (VStr "Unknown")) ;;
    print "   - {}" [name]
  else print "   - {}" [table].

(** The body of the loop over [products[:2]]. *)
Definition print_product (product : value) : M unit :=
  if isinstance_dict product then
    name <- lift (get product "product_name" (VStr "Unknown")) ;;
    code <- lift (get product "product_code" (VStr "N/A")) ;;
    print "   - {} (Code: {})" [name; code]
  else print "   - {}" [product].

(** Steps 2 to 6 of the demonstration, after a successful discovery. *)
Definition demonstrate_steps : M unit :=
  print "" [] ;;;
  healthy <- check_health ;;
  (if negb healthy
   then print "API is not healthy. Continuing with limited functionality." []
   else ret tt) ;;;
  print "" [] ;;;
  s <- self ;;
  instructions <- lift (get (guide_data s) "ai_agent_instructions" (VDict [])) ;;
  best_practices <- lift (get instructions "best_practices" (VList [])) ;;
  print "AI Agent Best Practices:" [] ;;;
  practices <- lift (iter best_practices) ;;
  for_each (combine (seq 1 (List.length practices)) practices) print_practice ;;;
  print "" [] ;;;
  tables <- get_database_tables ;;
  ok <- (if andb (truthy tables) (isinstance_dict tables)
         then v <- lift (get tables "success" VNone) ;; ret (truthy v)
         else ret false) ;;
  (if ok then
     table_data <- lift (get tables "data" (VList [])) ;;
     print "Available Tables:" [] ;;;
     first5 <- lift (slice_to table_data 5) ;;
     rows <- lift (iter first5) ;;
     for_each rows print_table
   else if truthy tables then
     print "Tables response: {} - {}"
           [VStr ("<class '" ++ type_name tables ++ "'>"); tables]
   else print "No tables found or error occurred" []) ;;;
  print "" [] ;;;
  print "Testing SQL Capabilities:" [] ;;;
  result <- execute_select
    "SELECT 1 as test, 'Hello from AI Agent' as message, now() as timestamp" ;;
  ok <- lift (get result "success" VNone) ;;
  (if truthy ok then
     data <- lift (get result "data" (VList [])) ;;
     if truthy data then
       row <- lift (item0 data) ;;
       print "   Test result: {}" [row]
     else ret tt
   else ret tt) ;;;
  print "" [] ;;;
  result <- execute_command "SHOW TABLES" ;;
  ok <- lift (get result "success" VNone) ;;
  (if truthy ok then print "   Tables command executed successfully" []
   else ret tt) ;;;
  print "" [] ;;;
  print "Testing Product Search:" [] ;;;
  search_result <- search_products "test" 3 ;;
  ok <- lift (get search_result "success" VNone) ;;
  (if truthy ok then
     products <- lift (get search_result "data" (VList [])) ;;
     n <- lift (len products) ;;
     print "   Found {} products" [VInt (Z.of_nat n)] ;;;
     if andb (isinstance_list products) (truthy products) then
       first2 <- lift (slice_to products 2) ;;
       shown <- lift (iter first2) ;;
       for_each shown print_product
     else print "   No products to display" []
   else ret tt) ;;;
  print "" [] ;;;
  print "AI Agent demonstration completed successfully!" [].

Definition demonstrate_capabilities : M unit :=
  print "SMLGOAPI AI Agent Demonstration" [] ;;;
  print "==================================================" [] ;;;
  discovered <- discover_api ;;
  if negb discovered then print "Failed to discover API. Exiting." []
  else demonstrate_steps.

(** What [input()] meets at the prompt: a typed line, or Ctrl-C. *)
Inductive keyboard : Type :=
| Typed (text : string)
| CtrlC.

Definition input (k : keyboard) : M string :=
  print "> " [] ;;;
  match k with
  | Typed text => ret text
  | CtrlC => raise (Exn KeyboardInterrupt "")
  end.

Inductive flow : Type := Continue | Break.

Definition print_indented (v : value) : M unit := print "   {}" [v].

Definition usage : string :=
  "Unknown command. Try 'health', 'tables', 'command <sql>', 'select <sql>', 'search <term>', or 'quit'".

(** The [if] / [elif] chain on one input line. *)
Definition interpret (user_input : string) : M flow :=
  let low := lower user_input in
  if orb (low =? "quit") (orb (low =? "exit") (low =? "q")) then
    print "Goodbye!" [] ;;; ret Break
  else if low =? "health" then
    check_health ;;; ret Continue
  else if low =? "tables" then
    tables <- get_database_tables ;;
    first10 <- lift (slice_to tables 10) ;;
    rows <- lift (iter first10) ;;
    for_each rows print_indented ;;;
    ret Continue
  else if startswith low "command " then
    result <- execute_command (strip (drop 8 user_input)) ;;
    message <- lift (get result "message" (VStr "No message")) ;;
    print "   Result: {}" [message] ;;;
    ret Continue
  else if startswith low "select " then
    result <- execute_select (strip (drop 7 user_input)) ;;
    ok <- lift (get result "success" VNone) ;;
    (if truthy ok then
       data <- lift (get result "data" (VList [])) ;;
       n <- lift (len data) ;;
       print "   Rows returned: {}" [VInt (Z.of_nat n)] ;;;
       first3 <- lift (slice_to data 3) ;;
       rows <- lift (iter first3) ;;
       for_each rows print_indented
     else ret tt) ;;;
    ret Continue
  else if startswith low "search " then
    result <- search_products_default (strip (drop 7 user_input)) ;;
    ok <- lift (get result "success" VNone) ;;
    (if truthy ok then
       products <- lift (get result "data" (VList [])) ;;
       n <- lift (len products) ;;
       print "   Products found: {}" [VInt (Z.of_nat n)] ;;;
       first3 <- lift (slice_to products 3) ;;
       rows <- lift (iter first3) ;;
       for_each rows print_indented
     else ret tt) ;;;
    ret Continue
  else
    print usage [] ;;; ret Continue.

(** The two [except] clauses of the loop body. *)
Definition loop_handler (e : exn) : option (M flow) :=
  match exn_class_of e with
  | KeyboardInterrupt => Some (print "Goodbye!" [] ;;; ret Break)
  | _ => except_Exception (fun e =>
           print "Error: {}" [VStr (str e)] ;;; ret Continue) e
  end.

(** One turn of [while True]. *)
Definition turn (k : keyboard) : M flow :=
  try_ (raw <- input k ;; interpret (strip raw)) loop_handler.

(** The loop, over what the keyboard delivers.  When the keyboard has no
    more to deliver, [input()] raises [EOFError] on every turn, the second
    clause prints it and the loop goes on: it never ends. *)
Fixpoint interactive_loop (keys : list keyboard) : M unit :=
  match keys with
  | [] => diverge
  | k :: rest =>
      f <- turn k ;;
      match f with
      | Break => ret tt
      | Continue => interactive_loop rest
      end
  end.

Definition interactive_mode (keys : list keyboard) : M unit :=
  print "SMLGOAPI AI Agent - Interactive Mode" [] ;;;
  print "Commands: 'health', 'tables', 'command <sql>', 'select <sql>', 'search <term>', 'quit'" [] ;;;
  print "======================================================================" [] ;;;
  discovered <- discover_api ;;
  if negb discovered then ret tt else interactive_loop keys.

End Methods.
End Agent.

(** ** [thai_admin_demo.py]: class [ThaiAdminAPI] *)

Module ThaiAdmin.
Import Py Http Run.
Local Open Scope run_scope.

(** [self.session] is a [requests.Session]; what the class puts in it is its
    default headers. *)
Record ThaiAdminAPI : Type := Self {
  base_url : string;
  session : list (string * string)
}.

(** [__init__]. *)
Definition init (url : string) : ThaiAdminAPI :=
  Self url [("Content-Type", "application/json")].

Section Methods.
Variable net : service.

Local Abbreviation M := (Run.M ThaiAdminAPI).

(** [self.session.post(u, json=payload)]. *)
Definition session_post (u : string) (json : value) : M response :=
  s <- self ;;
  send net (Request POST u (session s) (Some json)).

Definition get_provinces : M value :=
  try_
    (s <- self ;;
     response <- session_post (base_url s ++ "/get/provinces") (VDict []) ;;
     raise_for_status response (base_url s ++ "/get/provinces") ;;;
     data <- lift (decode response) ;;
     ok <- lift (get data "success" VNone) ;;
     if truthy ok then
       message <- lift (get data "message" VNone) ;;
       print "{}" [message] ;;;
       lift (get data "data" (VList []))
     else
       err <- lift (get data "error" VNone) ;;
       print "Error: {}" [err] ;;;
       ret (VList []))
    (except_Exception (fun e =>
       print "Request failed: {}" [VStr (str e)] ;;;
       ret (VList []))).

Definition get_amphures (province_id : Z) : M value :=
  try_
    (s <- self ;;
     response <- session_post (base_url s ++ "/get/amphures")
                   (VDict [("province_id", VInt province_id)]) ;;
     raise_for_status response (base_url s ++ "/get/amphures") ;;;
     data <- lift (decode response) ;;
     ok <- lift (get data "success" VNone) ;;
     if truthy ok then
       message <- lift (get data "message" VNone) ;;
       print "{}" [message] ;;;
       lift (get data "data" (VList []))
     else
       err <- lift (get data "error" VNone) ;;
       print "Error: {}" [err] ;;;
       ret (VList []))
    (except_Exception (fun e =>
       print "Request failed: {}" [VStr (str e)] ;;;
       ret (VList []))).

Definition get_tambons (amphure_id province_id : Z) : M value :=
  try_
    (s <- self ;;
     response <- session_post (base_url s ++ "/get/tambons")
                   (VDict [("amphure_id", VInt amphure_id);
                           ("province_id", VInt province_id)]) ;;
     raise_for_status response (base_url s ++ "/get/tambons") ;;;
     data <- lift (decode response) ;;
     ok <- lift (get data "success" VNone) ;;
     if truthy ok then
       message <- lift (get data "message" VNone) ;;
       print "{}" [message] ;;;
       lift (get data "data" (VList []))
     else
       err <- lift (get data "error" VNone) ;;
       print "Error: {}" [err] ;;;
       ret (VList []))
    (except_Exception (fun e =>
       print "Request failed: {}" [VStr (str e)] ;;;
       ret (VList []))).

End Methods.
End ThaiAdmin.

(** ** More built-ins, for the demonstration scripts *)

Module PyMore.
Import Py.

(** [v[k]] for a string key [k].  The messages are those of Python 3.11 and
    later (before, a string said "string indices must be integers"). *)
Definition item (v : value) (k : string) : exn + value :=
  match v with
  | VDict kvs =>
      match lookup k kvs with
      | Some x => inr x
      | None => inl (Exn KeyError ("'" ++ k ++ "'"))
      end
  | VList _ =>
      inl (Exn TypeError "list indices must be integers or slices, not str")
  | VStr _ => inl (Exn TypeError "string indices must be integers, not 'str'")
  | _ => inl (not_subscriptable v)
  end.

(** The format field [{v:2d}]: integers (and [bool]) only. *)
Definition format_2d (v : value) : exn + value :=
  match v with
  | VBool _ | VInt _ => inr v
  | VFloat _ _ =>
      inl (Exn ValueError "Unknown format code 'd' for object of type 'float'")
  | VStr _ =>
      inl (Exn ValueError "Unknown format code 'd' for object of type 'str'")
  | _ =>
      inl (Exn TypeError
               ("unsupported format string passed to " ++ type_name v
                ++ ".__format__"))
  end.

(** [p in s] for two strings: [p] occurs in [s]. *)
Fixpoint occurs (p s : string) : bool :=
  if prefix p s then true
  else match s with
       | EmptyString => false
       | String _ rest => occurs p rest
       end.

(** [term in v] for a string [term]: a substring of a string, an element of
    a list, a key of a mapping. *)
Definition contains (term : string) (v : value) : exn + bool :=
  match v with
  | VStr s => inr (occurs term s)
  | VList xs => inr (existsb (fun x => eq_str x term) xs)
  | VDict kvs => inr (existsb (fun kv => fst kv =? term) kvs)
  | _ => inl (Exn TypeError
                  ("argument of type '" ++ type_name v ++ "' is not iterable"))
  end.

End PyMore.

(** A function that creates an object and works on it: [m] runs on [obj],
    which is dropped at the end. *)
Definition with_object {S T A : Type} (obj : T) (m : Run.M T A) : Run.M S A :=
  fun s w =>
    match m obj w with
    | (r, _, w') => (r, s, w')
    end.

(** ** [ai_agent_example.py]: [main] *)

Module AgentScript.
Import Py Http Run.
Local Open Scope run_scope.

(** [main], given [sys.argv] and what the keyboard delivers. *)
Definition main (net : service) (argv : list string)
           (keys : list Agent.keyboard) {S : Type} : M S unit :=
  with_object (Agent.init Agent.default_url)
    (if andb (1 <? List.length argv)%nat (nth 1 argv "" =? "--interactive")
     then Agent.interactive_mode net keys
     else Agent.demonstrate_capabilities net).

End AgentScript.

(** ** [thai_admin_demo.py]: the demonstrations and [main] *)

Module ThaiDemo.
Import Py PyMore Http Run.
Local Open Scope run_scope.

Definition default_url : string := "http://localhost:8008".

Section Demos.
Variable net : service.

Local Abbreviation M := (Run.M ThaiAdmin.ThaiAdminAPI).

(** A line of the province lists, with the [id] right-aligned. *)
Definition print_province (province : value) : M unit :=
  id <- lift (item province "id") ;;
  id <- lift (format_2d id) ;;
  name_th <- lift (item province "name_th") ;;
  name_en <- lift (item province "name_en") ;;
  print "   {:2d}. {} ({})" [id; name_th; name_en].

(** A line of the amphure and tambon lists (the three loops have the same
    body). *)
Definition print_district (district : value) : M unit :=
  id <- lift (item district "id") ;;
  name_th <- lift (item district "name_th") ;;
  name_en <- lift (item district "name_en") ;;
  print "   {}. {} ({})" [id; name_th; name_en].

(** The body of [demo_hierarchical_lookup], on its [api]. *)
Definition hierarchical_lookup : M unit :=
  print "SMLGOAPI Thai Administrative Data Demo" [] ;;;
  print "==================================================" [] ;;;
  print "1. Getting all Thai provinces..." [] ;;;
  provinces <- ThaiAdmin.get_provinces net ;;
  if negb (truthy provinces) then
    print "Failed to get provinces. Exiting." []
  else
    print "First 5 provinces:" [] ;;;
    first5 <- lift (slice_to provinces 5) ;;
    shown <- lift (iter first5) ;;
    for_each shown print_province ;;;
    n <- lift (len provinces) ;;
    print "   ... and {} more provinces" [VInt (Z.of_nat n - 5)] ;;;
    print "2. Getting districts in Bangkok..." [] ;;;
    bangkok_amphures <- ThaiAdmin.get_amphures net 1 ;;
    (if truthy bangkok_amphures then
       print "First 5 districts in Bangkok:" [] ;;;
       first5 <- lift (slice_to bangkok_amphures 5) ;;
       shown <- lift (iter first5) ;;
       for_each shown print_district ;;;
       n <- lift (len bangkok_amphures) ;;
       print "   ... and {} more districts" [VInt (Z.of_nat n - 5)] ;;;
       print "3. Getting sub-districts in Khet Phra Nakhon..." [] ;;;
       tambons <- ThaiAdmin.get_tambons net 1001 1 ;;
       if truthy tambons then
         print "All sub-districts in Khet Phra Nakhon:" [] ;;;
         shown <- lift (iter tambons) ;;
         for_each shown print_district
       else ret tt
     else ret tt) ;;;
    print "4. Getting districts in Chiang Mai..." [] ;;;
    chiangmai_amphures <- ThaiAdmin.get_amphures net 38 ;;
    if truthy chiangmai_amphures then
      n <- lift (len chiangmai_amphures) ;;
      print "Found {} districts in Chiang Mai:" [VInt (Z.of_nat n)] ;;;
      first3 <- lift (slice_to chiangmai_amphures 3) ;;
      shown <- lift (iter first3) ;;
      for_each shown print_district ;;;
      n <- lift (len chiangmai_amphures) ;;
      if (3 <? n)%nat then print "   ... and {} more" [VInt (Z.of_nat n - 3)]
      else ret tt
    else ret tt.

Definition search_terms : list string := ["กรุง"; "เชียง"; "สมุทร"; "นคร"].

(** [[p for p in provinces if term in p['name_th']]]. *)
Fixpoint matching (term : string) (provinces : list value) : M (list value) :=
  match provinces with
  | [] => ret []
  | p :: rest =>
      name_th <- lift (item p "name_th") ;;
      found <- lift (contains term name_th) ;;
      matches <- matching term rest ;;
      ret (if found then p :: matches else matches)
  end.

(** The body of the loop over [search_terms]. *)
Definition search_one (provinces : value) (term : string) : M unit :=
  print "Provinces containing '{}':" [VStr term] ;;;
  all <- lift (iter provinces) ;;
  matches <- matching term all ;;
  for_each matches print_province.

(** The body of [demo_search_by_name], on its [api]. *)
Definition search_by_name : M unit :=
  print "Province Search Demo" [] ;;;
  print "------------------------------" [] ;;;
  provinces <- ThaiAdmin.get_provinces net ;;
  if negb (truthy provinces) then ret tt
  else for_each search_terms (search_one provinces).

Definition demo_hierarchical_lookup {S : Type} : Run.M S unit :=
  with_object (ThaiAdmin.init default_url) hierarchical_lookup.

Definition demo_search_by_name {S : Type} : Run.M S unit :=
  with_object (ThaiAdmin.init default_url) search_by_name.

(** The request of [main]'s connectivity test (its [timeout=5] is a setting
    of the transport, not a part of what is sent). *)
Definition health_probe : request :=
  Request GET "http://localhost:8008/health" [] None.

(** The connectivity test of [main]: whether [main] goes on. *)
Definition server_available {S : Type} : Run.M S bool :=
  try_
    (response <- send net health_probe ;;
     if negb (status_code response =? 200)%Z then
       print "SMLGOAPI server not available. Please start the server first." [] ;;;
       ret false
     else ret true)
    (except_Exception (fun _ =>
       print "Cannot connect to SMLGOAPI server at http://localhost:8008" [] ;;;
       print "   Please make sure the server is running." [] ;;;
       ret false)).

Definition main {S : Type} : Run.M S unit :=
  available <- server_available ;;
  if negb available then ret tt
  else
    demo_hierarchical_lookup ;;;
    demo_search_by_name ;;;
    print "==================================================" [] ;;;
    print "Demo completed successfully!" [] ;;;
    print "Integration Tips:" [] ;;;
    print "   - Use province_id from /get/provinces to get amphures" [] ;;;
    print "   - Use amphure_id + province_id to get tambons" [] ;;;
    print "   - Cache the data locally for better performance" [] ;;;
    print "   - All endpoints return Thai and English names" [] ;;;
    print "   - Perfect for address forms and location selectors" [].

End Demos.
End ThaiDemo.

(** ** [simple_ai_test.py] *)

Module SimpleTest.
Import Py Http Run.
Local Open Scope run_scope.

Definition base_url : string := "http://localhost:8008".

Definition guide_request : request :=
  Request GET (base_url ++ "/guide") [] None.

Definition health_request : request :=
  Request GET (base_url ++ "/health") [] None.

Definition select_request : request :=
  Request POST (base_url ++ "/select")
          [("Content-Type", "application/json")]
          (Some (VDict [("query",
                         VStr "SELECT 1 as test, 'AI Agent Test' as message")])).

Definition command_request : request :=
  Request POST (base_url ++ "/command")
          [("Content-Type", "application/json")]
          (Some (VDict [("query", VStr "SHOW TABLES")])).

Section Test.
Variable net : service.
Context {S : Type}.

(** The statements under [try]. No status is checked: every response is
    decoded. *)
Definition steps : M S unit :=
  print "Fetching API guide..." [] ;;;
  response <- send net guide_request ;;
  guide <- lift (decode response) ;;
  api_name <- lift (get guide "api_name" VNone) ;;
  print "API Name: {}" [api_name] ;;;
  version <- lift (get guide "version" VNone) ;;
  print "Version: {}" [version] ;;;
  endpoints <- lift (get guide "endpoints" (VDict [])) ;;
  names <- lift (keys endpoints) ;;
  print "Available endpoints: {}" [VList names] ;;;
  print "" [] ;;;
  print "Checking health..." [] ;;;
  health_response <- send net health_request ;;
  health <- lift (decode health_response) ;;
  status <- lift (get health "status" VNone) ;;
  print "Status: {}" [status] ;;;
  print "" [] ;;;
  print "Testing SELECT query..." [] ;;;
  select_response <- send net select_request ;;
  select_result <- lift (decode select_response) ;;
  ok <- lift (get select_result "success" VNone) ;;
  (if truthy ok then
     data <- lift (get select_result "data" VNone) ;;
     print "Query successful: {}" [data]
   else
     err <- lift (get select_result "error" VNone) ;;
     print "Query failed: {}" [err]) ;;;
  print "" [] ;;;
  print "Testing command..." [] ;;;
  command_response <- send net command_request ;;
  command_result <- lift (decode command_response) ;;
  ok <- lift (get command_result "success" VNone) ;;
  (if truthy ok then print "Command successful" []
   else
     err <- lift (get command_result "error" VNone) ;;
     print "Command failed: {}" [err]) ;;;
  print "" [] ;;;
  print "AI Agent test completed successfully!" [].

Definition test_api_guide : M S unit :=
  print "SMLGOAPI AI Agent Simple Test" [] ;;;
  print "========================================" [] ;;;
  try_ steps
       (except_Exception (fun e => print "Error: {}" [VStr (str e)])).

End Test.
End SimpleTest.

(** ** Fixtures: services used in the examples *)

Module Fixtures.
Import Py Http.

(** A service nobody listens at. *)
Definition down : service := fun _ _ => Unreachable "Connection refused".

(** A service that answers every request [200 OK] with the same JSON. *)
Definition answering (v : value) : service :=
  fun _ _ => Answered (Response 200 "OK" (Json v)).

(** A service that answers the first request with [v1] and every later one
    with [v2]. *)
Definition changing (v1 v2 : value) : service :=
  fun before _ =>
    match before with
    | [] => Answered (Response 200 "OK" (Json v1))
    | _ => Answered (Response 200 "OK" (Json v2))
    end.

(** A service that answers with an error status. *)
Definition erring (code : Z) (why : string) : service :=
  fun _ _ => Answered (Response code why (Json VNone)).

(** A service that answers [200 OK] with a page that is no JSON. *)
Definition garbled : service :=
  fun _ _ => Answered (Response 200 "OK" (NotJson "Expecting value")).

(** A service that answers by URL: [200 OK] with the JSON of the route, and
    [404 Not Found] with an HTML page for any other URL. *)
Definition routed (routes : list (string * value)) : service :=
  fun _ rq =>
    match lookup (url rq) routes with
    | Some v => Answered (Response 200 "OK" (Json v))
    | None => Answered (Response 404 "Not Found" (NotJson "Expecting value"))
    end.

(** The search response of the scenario: two records, nine matches. *)
Definition search_two_of_nine : value :=
  VDict [("success", VBool true);
         ("data", VList [VDict [("product_name", VStr "Tea");
                                ("product_code", VStr "T-1")];
                         VDict [("product_name", VStr "Test kit");
                                ("product_code", VStr "K-7")]]);
         ("metadata", VDict [("total_found", VInt 9);
                             ("duration_ms", VFloat 51 (-1))])].

(** The two shapes of the tables response. *)
Definition tables_bare : value :=
  VList [VStr "products"; VStr "orders"].

Definition tables_wrapped : value :=
  VDict [("success", VBool true);
         ("data", VList [VStr "products"; VStr "orders"])].

(** A whole service, with the tables response as a parameter. *)
Definition smlgoapi (tables : value) : service :=
  routed
    [("http://localhost:8008/guide",
      VDict [("api_name", VStr "SMLGOAPI"); ("version", VStr "1.0");
             ("endpoints", VDict [("health", VDict []); ("select", VDict [])])]);
     ("http://localhost:8008/health", VDict [("status", VStr "healthy")]);
     ("http://localhost:8008/api/tables", tables);
     ("http://localhost:8008/select",
      VDict [("success", VBool true);
             ("data", VList [VDict [("test", VInt 1)]]);
             ("row_count", VInt 1); ("duration_ms", VFloat 23 (-1))]);
     ("http://localhost:8008/command",
      VDict [("success", VBool true); ("message", VStr "done")]);
     ("http://localhost:8008/search", search_two_of_nine)].

End Fixtures.

(** * Properties *)

Import Py Http Run.

(** Projections of a run. *)
Definition result_of {S A} (r : outcome A * S * world) : outcome A := fst (fst r).
Definition self_of {S A} (r : outcome A * S * world) : S := snd (fst r).
Definition world_of {S A} (r : outcome A * S * world) : world := snd r.

(** [silent m]: [m] makes no transport call. *)
Definition silent {S A} (m : M S A) : Prop :=
  forall s w, sent (world_of (m s w)) = sent w.

(** [keeps_self m]: [m] leaves the object as it found it. *)
Definition keeps_self {S A} (m : M S A) : Prop :=
  forall s w, self_of (m s w) = s.

(** [ordinary m]: [m] ends, and what it raises, if anything, derives from
    [Exception] (so [except Exception] catches it). *)
Definition ordinary {S A} (m : M S A) : Prop :=
  forall s w,
    match result_of (m s w) with
    | Ret _ => True
    | Raise e => is_Exception e = true
    | Diverge => False
    end.

(** [returns m]: [m] always returns a value: it neither raises nor runs
    forever. *)
Definition returns {S A} (m : M S A) : Prop :=
  forall s w, exists a, result_of (m s w) = Ret a.

(** [x] fails, if it does, with an [Exception]. *)
Definition exceptional {A} (x : exn + A) : Prop :=
  forall e, x = inl e -> is_Exception e = true.

(** ** The vocabulary of the properties *)

(** The requests of the agent. *)
Module AgentRequests.
Import Agent.

Definition guide (s : SMLGOAPIAgent) : request :=
  Request GET (base_url s ++ "/guide") [] None.

Definition health (s : SMLGOAPIAgent) : request :=
  Request GET (base_url s ++ "/health") [] None.

Definition tables (s : SMLGOAPIAgent) : request :=
  Request GET (base_url s ++ "/api/tables") [] None.

Definition command (s : SMLGOAPIAgent) (sql : string) : request :=
  Request POST (base_url s ++ "/command") json_headers
          (Some (VDict [("query", VStr sql)])).

Definition select (s : SMLGOAPIAgent) (sql : string) : request :=
  Request POST (base_url s ++ "/select") json_headers
          (Some (VDict [("query", VStr sql)])).

Definition search (s : SMLGOAPIAgent) (term : string) (limit : Z) : request :=
  Request POST (base_url s ++ "/search") json_headers
          (Some (VDict [("query", VStr term); ("limit", VInt limit)])).

End AgentRequests.

(** The object after [discover_api] met the reply [rp] to its request for
    [u]: the fields are assigned one after the other, as far as the method
    gets. *)
Definition discovered_self (u : string) (rp : reply) (s : Agent.SMLGOAPIAgent)
  : Agent.SMLGOAPIAgent :=
  match rp with
  | Unreachable _ => s
  | Answered r =>
      match http_error r u, content r with
      | None, Json g =>
          match get g "endpoints" (VDict []) with
          | inr e => Agent.set_endpoints e (Agent.set_guide_data g s)
          | inl _ => Agent.set_guide_data g s
          end
      | _, _ => s
      end
  end.

(** Whether [discover_api] returns [True] on the reply [rp]. *)
Definition discovers (u : string) (rp : reply) : bool :=
  match rp with
  | Unreachable _ => false
  | Answered r =>
      match http_error r u, content r with
      | None, Json g =>
          match get g "endpoints" (VDict []) with
          | inr e => match keys e with inr _ => true | inl _ => false end
          | inl _ => false
          end
      | _, _ => false
      end
  end.

(** The three operations of the dispatcher that return a result record. *)
Inductive operation : Type :=
| ExecuteCommand (sql : string)
| ExecuteSelect (sql : string)
| Search (term : string) (limit : Z).

Definition dispatch (net : service) (op : operation)
  : M Agent.SMLGOAPIAgent value :=
  match op with
  | ExecuteCommand sql => Agent.execute_command net sql
  | ExecuteSelect sql => Agent.execute_select net sql
  | Search term limit => Agent.search_products net term limit
  end.

Definition request_of (s : Agent.SMLGOAPIAgent) (op : operation) : request :=
  match op with
  | ExecuteCommand sql => AgentRequests.command s sql
  | ExecuteSelect sql => AgentRequests.select s sql
  | Search term limit => AgentRequests.search s term limit
  end.

(** The text of the exception a failed transport call raises. *)
Definition failure_text (u : string) (rp : reply) : string :=
  match rp with
  | Unreachable msg => msg
  | Answered r =>
      match http_error r u with
      | Some e => str e
      | None =>
          match content r with
          | NotJson why => why ++ ": line 1 column 1 (char 0)"
          | Json _ => ""
          end
      end
  end.

(** The class of that exception. *)
Definition failure_class (u : string) (rp : reply) : exn_class :=
  match rp with
  | Unreachable _ => ConnectionError
  | Answered r =>
      match http_error r u with
      | Some _ => HTTPError
      | None => JSONDecodeError
      end
  end.

Definition failure_of (u : string) (rp : reply) : exn :=
  Exn (failure_class u rp) (failure_text u rp).

(** Whether the reply [rp] to the GET of [u] makes [check_health] return
    [True]: a response, no error status, a JSON mapping, and its ["status"]
    equal to ["healthy"]. *)
Definition reports_healthy (u : string) (rp : reply) : bool :=
  match rp with
  | Unreachable _ => false
  | Answered r =>
      match http_error r u, content r with
      | None, Json (VDict kvs) =>
          match lookup "status" kvs with
          | Some st => eq_str st "healthy"
          | None => false
          end
      | _, _ => false
      end
  end.

(** What [{x:.2f}] accepts. *)
Definition is_number (v : value) : bool :=
  match v with
  | VBool _ | VInt _ | VFloat _ _ => true
  | _ => false
  end.

(** The three fetches of [ThaiAdminAPI], as one family. *)
Inductive level : Type :=
| Provinces
| Amphures (province_id : Z)
| Tambons (amphure_id province_id : Z).

Definition fetch (net : service) (lvl : level)
  : M ThaiAdmin.ThaiAdminAPI value :=
  match lvl with
  | Provinces => ThaiAdmin.get_provinces net
  | Amphures province_id => ThaiAdmin.get_amphures net province_id
  | Tambons amphure_id province_id =>
      ThaiAdmin.get_tambons net amphure_id province_id
  end.

Definition level_request (api : ThaiAdmin.ThaiAdminAPI) (lvl : level) : request :=
  match lvl with
  | Provinces =>
      Request POST (ThaiAdmin.base_url api ++ "/get/provinces")
              (ThaiAdmin.session api) (Some (VDict []))
  | Amphures province_id =>
      Request POST (ThaiAdmin.base_url api ++ "/get/amphures")
              (ThaiAdmin.session api)
              (Some (VDict [("province_id", VInt province_id)]))
  | Tambons amphure_id province_id =>
      Request POST (ThaiAdmin.base_url api ++ "/get/tambons")
              (ThaiAdmin.session api)
              (Some (VDict [("amphure_id", VInt amphure_id);
                            ("province_id", VInt province_id)]))
  end.

(** The [success] field of a response body, as [data.get('success')]. *)
Definition success_field (kvs : list (string * value)) : value :=
  match lookup "success" kvs with
  | Some v => v
  | None => VNone
  end.

(** The service answered, and reported a failure of its own. *)
Definition service_failure (u : string) (rp : reply) : Prop :=
  exists r kvs,
    rp = Answered r
    /\ http_error r u = None
    /\ content r = Json (VDict kvs)
    /\ truthy (success_field kvs) = false.

(** The service answered with a success. *)
Definition service_success (u : string) (rp : reply)
           (kvs : list (string * value)) : Prop :=
  exists r,
    rp = Answered r
    /\ http_error r u = None
    /\ content r = Json (VDict kvs)
    /\ truthy (success_field kvs) = true.

(** The [duration_ms] field that [execute_command] and [execute_select]
    format, with its default. *)
Definition duration_field (kvs : list (string * value)) : value :=
  match lookup "duration_ms" kvs with
  | Some d => d
  | None => VInt 0
  end.

(** The service answered the request [rq] with the JSON mapping [kvs],
    without an error status. *)
Definition answered_with (net : service) (w : world) (rq : request)
           (kvs : list (string * value)) : Prop :=
  exists r,
    net (sent w) rq = Answered r
    /\ http_error r (url rq) = None
    /\ content r = Json (VDict kvs).

(** What [get_database_tables] returns on the reply [rp] to its GET of [u]:
    the decoded body when it has a length, the empty list otherwise. *)
Definition tables_of (u : string) (rp : reply) : value :=
  match rp with
  | Unreachable _ => VList []
  | Answered r =>
      match http_error r u, content r with
      | None, Json v =>
          match len v with
          | inr _ => v
          | inl _ => VList []
          end
      | _, _ => VList []
      end
  end.

(** The [endpoints] of a guide, with the default of [discover_api]. *)
Definition endpoints_field (kvs : list (string * value)) : value :=
  match lookup "endpoints" kvs with
  | Some e => e
  | None => VDict []
  end.

(** Whether the operation formats the [duration_ms] of the answer itself
    ([search_products] formats the one under ["metadata"]). *)
Definition top_level_duration (op : operation) : bool :=
  match op with
  | Search _ _ => false
  | _ => true
  end.

(** The requests the interactive loop can make for an agent [s]: one of
    the five operations of its command grammar (a search always with the
    default limit). *)
Definition loop_request (s : Agent.SMLGOAPIAgent) (r : request) : Prop :=
  r = AgentRequests.health s
  \/ r = AgentRequests.tables s
  \/ (exists sql, r = AgentRequests.command s sql)
  \/ (exists sql, r = AgentRequests.select s sql)
  \/ (exists term, r = AgentRequests.search s term 10).

(** Whether what the keyboard delivers ends the session: Ctrl-C, or a line
    that is [quit], [exit] or [q] once stripped and lowered. *)
Definition ends_session (k : Agent.keyboard) : bool :=
  match k with
  | Agent.CtrlC => true
  | Agent.Typed text =>
      let low := lower (strip text) in
      orb (low =? "quit") (orb (low =? "exit") (low =? "q"))
  end.


(** [extends w0 P log]: [log] is the log of [w0] followed by requests [rs]
    with [P rs]. *)
Definition extends (w0 : world) (P : list request -> Prop)
           (log : list request) : Prop :=
  exists rs, log = (sent w0 ++ rs)%list /\ P rs.

(** [rs] is a non-empty initial part of [all]. *)
Definition starts (all rs : list request) : Prop :=
  rs = firstn (List.length rs) all /\ 1 <= List.length rs.

(** The six requests of the demonstration, in the order of its steps. *)
Definition demonstration_requests (s : Agent.SMLGOAPIAgent) : list request :=
  [AgentRequests.guide s;
   AgentRequests.health s;
   AgentRequests.tables s;
   AgentRequests.select s
     "SELECT 1 as test, 'Hello from AI Agent' as message, now() as timestamp";
   AgentRequests.command s "SHOW TABLES";
   AgentRequests.search s "test" 3].

(** The four requests of [demo_hierarchical_lookup]. *)
Definition provinces_request (api : ThaiAdmin.ThaiAdminAPI) : request :=
  level_request api Provinces.

Definition bangkok_request (api : ThaiAdmin.ThaiAdminAPI) : request :=
  level_request api (Amphures 1).

Definition phra_nakhon_request (api : ThaiAdmin.ThaiAdminAPI) : request :=
  level_request api (Tambons 1001 1).

Definition chiang_mai_request (api : ThaiAdmin.ThaiAdminAPI) : request :=
  level_request api (Amphures 38).

(** The client the demonstrations create. *)
Definition demo_api : ThaiAdmin.ThaiAdminAPI :=
  ThaiAdmin.init ThaiDemo.default_url.

(** The sequences of requests [demo_hierarchical_lookup] can make. *)
Definition lookup_sequences (api : ThaiAdmin.ThaiAdminAPI) : list (list request) :=
  [[provinces_request api];
   [provinces_request api; bangkok_request api];
   [provinces_request api; bangkok_request api; chiang_mai_request api];
   [provinces_request api; bangkok_request api; phra_nakhon_request api];
   [provinces_request api; bangkok_request api; phra_nakhon_request api;
    chiang_mai_request api]].

(** Whether the reply to the connectivity test lets [main] go on. *)
Definition answers_200 (rp : reply) : bool :=
  match rp with
  | Unreachable _ => false
  | Answered r => (status_code r =? 200)%Z
  end.

(** The four requests of [test_api_guide], in order. *)
Definition simple_test_requests : list request :=
  [SimpleTest.guide_request; SimpleTest.health_request;
   SimpleTest.select_request; SimpleTest.command_request].

(** Whether the Thai name of a province record contains [term]; the record
    is expected to be a mapping whose ["name_th"] is a string. *)
Definition named_like (term : string) (p : value) : bool :=
  match p with
  | VDict kvs =>
      match lookup "name_th" kvs with
      | Some (VStr name) => PyMore.occurs term name
      | _ => false
      end
  | _ => false
  end.

(** A record with a Thai name. *)
Definition has_thai_name (p : value) : Prop :=
  exists kvs name, p = VDict kvs /\ lookup "name_th" kvs = Some (VStr name).

(** ** Equations of the monad *)

Section MonadFacts.
Context {S : Type}.
Variable net : service.

Lemma run_print {A} (t : string) (fs : list value) (k : unit -> M S A) s w :
  bind (print t fs) k s w = k tt s (World (sent w) (printed w ++ [Line t fs])).
Proof. reflexivity. Qed.

Lemma run_self {A} (k : S -> M S A) s w : bind self k s w = k s s w.
Proof. reflexivity. Qed.

Lemma run_ret {A B} (a : A) (k : A -> M S B) s w : bind (ret a) k s w = k a s w.
Proof. reflexivity. Qed.

Lemma run_send {A} (r : request) (k : response -> M S A) s w :
  bind (send net r) k s w =
  match net (sent w) r with
  | Unreachable msg =>
      (Raise (Exn ConnectionError msg), s, World (sent w ++ [r]) (printed w))
  | Answered resp => k resp s (World (sent w ++ [r]) (printed w))
  end.
Proof. unfold bind, send. destruct (net (sent w) r); reflexivity. Qed.

Lemma silent_ret {A} (a : A) : silent (S:=S) (ret a).
Proof. intros s w; reflexivity. Qed.

Lemma silent_raise {A} (e : exn) : silent (S:=S) (A:=A) (raise e).
Proof. intros s w; reflexivity. Qed.

Lemma silent_lift {A} (x : exn + A) : silent (S:=S) (lift x).
Proof. destruct x; intros s w; reflexivity. Qed.

Lemma silent_self : silent (S:=S) self.
Proof. intros s w; reflexivity. Qed.

Lemma silent_update (f : S -> S) : silent (update f).
Proof. intros s w; reflexivity. Qed.

Lemma silent_print (t : string) (fs : list value) : silent (S:=S) (print t fs).
Proof. intros s w; reflexivity. Qed.

Lemma silent_raise_for_status (r : response) (u : string) :
  silent (S:=S) (raise_for_status r u).
Proof. unfold raise_for_status. destruct (http_error r u); intros s w; reflexivity. Qed.

Lemma silent_bind {A B} (m : M S A) (k : A -> M S B) :
  silent m -> (forall a, silent (k a)) -> silent (bind m k).
Proof.
  intros Hm Hk s w. unfold bind.
  specialize (Hm s w). destruct (m s w) as [[o s'] w']. cbn in Hm.
  destruct o; cbn; try assumption.
  rewrite Hk. assumption.
Qed.

Lemma silent_if {A} (b : bool) (m1 m2 : M S A) :
  silent m1 -> silent m2 -> silent (if b then m1 else m2).
Proof. destruct b; trivial. Qed.

Lemma silent_for_each {A} (xs : list A) (body : A -> M S unit) :
  (forall x, silent (body x)) -> silent (for_each xs body).
Proof.
  intros Hb. induction xs as [|x rest IH]; cbn [for_each].
  - apply silent_ret.
  - apply silent_bind; [apply Hb | intros _; exact IH].
Qed.

Lemma silent_except {A} (k : exn -> M S A) e h :
  (forall e', silent (k e')) -> except_Exception k e = Some h -> silent h.
Proof.
  unfold except_Exception. intros Hk. destruct (is_Exception e); [|discriminate].
  intros [= <-]. apply Hk.
Qed.

(** A computation that starts with one transport call and is silent after
    it makes exactly that call, whatever the reply. *)
Lemma send_then_silent {A} (r : request) (k : response -> M S A) s w :
  (forall resp, silent (k resp)) ->
  sent (world_of (bind (send net r) k s w)) = (sent w ++ [r])%list.
Proof.
  intros Hk. rewrite run_send. destruct (net (sent w) r) as [msg|resp].
  - reflexivity.
  - rewrite Hk. reflexivity.
Qed.

(** [try] adds no call when its handlers are silent. *)
Lemma try_sent {A} (m : M S A) (h : exn -> option (M S A)) s w :
  (forall e k, h e = Some k -> silent k) ->
  sent (world_of (try_ m h s w)) = sent (world_of (m s w)).
Proof.
  intros Hh. unfold try_. destruct (m s w) as [[o s'] w']. cbn.
  destruct o; cbn; try reflexivity.
  destruct (h e) as [k|] eqn:E; [|reflexivity].
  apply (Hh _ _ E).
Qed.

End MonadFacts.

Create HintDb silent.

#[export] Hint Resolve silent_ret silent_raise silent_lift silent_self
  silent_update silent_print silent_raise_for_status silent_if
  silent_for_each : silent.
#[export] Hint Extern 2 (silent (bind _ _)) =>
  apply silent_bind; [ | intros ?; cbv beta ] : silent.
#[export] Hint Extern 2 (silent (match ?x with _ => _ end)) =>
  destruct x : silent.

(** Tactics for the log of requests: the handlers are silent, and so is
    everything after the one call. *)
Ltac handlers_silent :=
  let e := fresh "e" in
  let k := fresh "k" in
  let H := fresh "H" in
  intros e k H;
  (eapply silent_except; [ | exact H ]; intros; cbv beta; auto 20 with silent).

Ltac one_call :=
  rewrite try_sent by handlers_silent;
  repeat first [ rewrite run_print | rewrite run_self ];
  rewrite send_then_silent by (intros; cbv beta; auto 60 with silent);
  reflexivity.

(** ** The one call each method makes *)

Section AgentCalls.
Import Agent.
Variable net : service.

Lemma discover_api_calls s w :
  sent (world_of (discover_api net s w)) = (sent w ++ [AgentRequests.guide s])%list.
Proof. unfold discover_api, requests_get. one_call. Qed.

Lemma check_health_calls s w :
  sent (world_of (check_health net s w)) = (sent w ++ [AgentRequests.health s])%list.
Proof. unfold check_health, requests_get. one_call. Qed.

Lemma execute_command_calls sql s w :
  sent (world_of (execute_command net sql s w))
  = (sent w ++ [AgentRequests.command s sql])%list.
Proof. unfold execute_command, requests_post. one_call. Qed.

Lemma execute_select_calls sql s w :
  sent (world_of (execute_select net sql s w))
  = (sent w ++ [AgentRequests.select s sql])%list.
Proof. unfold execute_select, requests_post. one_call. Qed.

Lemma search_products_calls term limit s w :
  sent (world_of (search_products net term limit s w))
  = (sent w ++ [AgentRequests.search s term limit])%list.
Proof. unfold search_products, requests_post. one_call. Qed.

Lemma get_database_tables_calls s w :
  sent (world_of (get_database_tables net s w))
  = (sent w ++ [AgentRequests.tables s])%list.
Proof. unfold get_database_tables, requests_get. one_call. Qed.

End AgentCalls.

(** ** What a reply makes of [discover_api] *)

(** Tactics that run a method: unfold the monad, then follow the reply, the
    status, the body and the fields the method reads. *)
Ltac unfold_run :=
  cbv [try_ bind print self send update lift ret raise raise_for_status
       except_Exception is_Exception result_of self_of world_of].

(** [raise_for_status] raises an [HTTPError] whose text is never empty. *)
Lemma append_nonempty_r (a b : string) : b <> "" -> a ++ b <> "".
Proof. destruct a; cbn; [trivial | discriminate]. Qed.

Lemma http_error_raises r u e :
  http_error r u = Some e -> exists msg, e = Exn HTTPError msg /\ msg <> "".
Proof.
  unfold http_error.
  destruct (andb _ _).
  - intros [= <-]. eexists; split; [reflexivity|].
    apply append_nonempty_r. discriminate.
  - destruct (andb _ _); [|discriminate].
    intros [= <-]. eexists; split; [reflexivity|].
    apply append_nonempty_r. discriminate.
Qed.

Ltac case_status r u :=
  let H := fresh "Hstatus" in
  let msg := fresh "msg" in
  let Hmsg := fresh "Hmsg" in
  let E := fresh "E" in
  destruct (http_error r u) eqn:H;
  [ apply http_error_raises in H; destruct H as (msg & E & Hmsg); subst | ].

Ltac case_step :=
  match goal with
  | |- context [match ?f ?h ?r with Unreachable _ => _ | Answered _ => _ end] =>
      destruct (f h r) eqn:?
  | |- context [match http_error ?r ?u with _ => _ end] => case_status r u
  | |- context [match content ?r with _ => _ end] =>
      destruct (content r) eqn:?
  | |- context [match lookup ?k ?kvs with _ => _ end] =>
      destruct (lookup k kvs) eqn:?
  | |- context [get ?x _ _] => is_var x; destruct x
  | |- context [keys ?x] => is_var x; destruct x
  | |- context [len ?x] => is_var x; destruct x
  | |- context [format_2f ?x] => is_var x; destruct x
  | |- context [if truthy ?x then _ else _] => destruct (truthy x) eqn:?
  end.

Ltac case_run := cbn; repeat (case_step; cbn in *; try congruence).

Section AgentDiscovery.
Import Agent.
Variable net : service.

Lemma discover_api_result s w :
  result_of (discover_api net s w)
  = Ret (discovers (base_url s ++ "/guide") (net (sent w) (AgentRequests.guide s))).
Proof.
  unfold discover_api, requests_get, discovers, AgentRequests.guide, decode.
  unfold_run. cbn.
  case_run; reflexivity.
Qed.

Lemma discover_api_self s w :
  self_of (discover_api net s w)
  = discovered_self (base_url s ++ "/guide") (net (sent w) (AgentRequests.guide s)) s.
Proof.
  unfold discover_api, requests_get, discovered_self, AgentRequests.guide, decode.
  unfold_run. cbn.
  case_run; reflexivity.
Qed.

End AgentDiscovery.

(** ** The dispatcher on a transport failure *)

(** The library's own messages, for an error status and for a body that is
    no JSON, are never empty. *)
Lemma failure_text_answered u r :
  transport_failure u (Answered r) -> failure_text u (Answered r) <> "".
Proof.
  cbn. intros [H | [why H]].
  - destruct (http_error r u) as [e|] eqn:E; [|congruence].
    apply http_error_raises in E as (msg & -> & Hmsg). exact Hmsg.
  - destruct (http_error r u) as [e|] eqn:E.
    + apply http_error_raises in E as (msg & -> & Hmsg). exact Hmsg.
    + rewrite H. apply append_nonempty_r. discriminate.
Qed.

Ltac fails_by_cases H u :=
  unfold failure_of, failure_class, failure_text;
  unfold_run; cbn;
  match goal with
  | |- context [match ?f ?h ?rq with Unreachable _ => _ | Answered _ => _ end] =>
      let msg := fresh "msg" in
      let r := fresh "r" in
      destruct (f h rq) as [msg|r];
      [ split; reflexivity
      | cbn in H |- *; case_status r u;
        [ cbn; split; reflexivity
        | let why := fresh "why" in
          destruct H as [H | [why H]]; [congruence|];
          rewrite H; cbn; split; reflexivity ] ]
  end.

Section DispatcherFailure.
Import Agent.
Variable net : service.

Lemma execute_command_fails sql s w :
  let rq := AgentRequests.command s sql in
  transport_failure (url rq) (net (sent w) rq) ->
  result_of (execute_command net sql s w)
  = Ret (failure (failure_of (url rq) (net (sent w) rq)))
  /\ self_of (execute_command net sql s w) = s.
Proof.
  intros rq H. subst rq.
  unfold execute_command, requests_post, AgentRequests.command, decode in *.
  cbn [url] in *. fails_by_cases H (base_url s ++ "/command").
Qed.

Lemma execute_select_fails sql s w :
  let rq := AgentRequests.select s sql in
  transport_failure (url rq) (net (sent w) rq) ->
  result_of (execute_select net sql s w)
  = Ret (failure (failure_of (url rq) (net (sent w) rq)))
  /\ self_of (execute_select net sql s w) = s.
Proof.
  intros rq H. subst rq.
  unfold execute_select, requests_post, AgentRequests.select, decode in *.
  cbn [url] in *. fails_by_cases H (base_url s ++ "/select").
Qed.

Lemma search_products_fails term limit s w :
  let rq := AgentRequests.search s term limit in
  transport_failure (url rq) (net (sent w) rq) ->
  result_of (search_products net term limit s w)
  = Ret (failure (failure_of (url rq) (net (sent w) rq)))
  /\ self_of (search_products net term limit s w) = s.
Proof.
  intros rq H. subst rq.
  unfold search_products, requests_post, AgentRequests.search, decode in *.
  cbn [url] in *. fails_by_cases H (base_url s ++ "/search").
Qed.

Lemma dispatch_fails op s w :
  let rq := request_of s op in
  transport_failure (url rq) (net (sent w) rq) ->
  result_of (dispatch net op s w)
  = Ret (failure (failure_of (url rq) (net (sent w) rq)))
  /\ self_of (dispatch net op s w) = s.
Proof.
  destruct op; cbn [dispatch request_of].
  - apply execute_command_fails.
  - apply execute_select_fails.
  - apply search_products_fails.
Qed.

End DispatcherFailure.

(** C1. On every transport failure (no response, an error status, a body
    that is no JSON) each of [execute_command], [execute_select] and
    [search_products] returns normally (no exception leaves the method) the
    record [{"success": False, "error": text}], where [text] is the text of
    the exception that was caught, and leaves the object as it was.  The
    text is not empty: the library's messages for an error status and for an
    undecodable body never are, and for a call that got no response it is
    the text the transport raised with, taken to be non-empty. *)
Theorem dispatcher_folds_transport_failure
  (net : service) (op : operation) (s : Agent.SMLGOAPIAgent) (w : world) :
  let rq := request_of s op in
  transport_failure (url rq) (net (sent w) rq) ->
  (forall msg, net (sent w) rq = Unreachable msg -> msg <> "") ->
  exists text,
    text <> ""
    /\ result_of (dispatch net op s w)
       = Ret (VDict [("success", VBool false); ("error", VStr text)])
    /\ self_of (dispatch net op s w) = s.
Proof.
  intros rq Hfail Htext.
  destruct (dispatch_fails net op s w Hfail) as [Hres Hself].
  exists (failure_text (url rq) (net (sent w) rq)).
  split; [|split; assumption].
  fold rq in Hfail.
  destruct (net (sent w) rq) as [msg|r] eqn:E.
  - cbn. apply Htext. reflexivity.
  - apply failure_text_answered. exact Hfail.
Qed.

(** C1 at work: the service is down and a command is sent. *)
Lemma dispatcher_folds_transport_failure_witness :
  exists text,
    text <> ""
    /\ result_of (dispatch Fixtures.down (ExecuteCommand "SHOW TABLES")
                    (Agent.init Agent.default_url) fresh)
       = Ret (VDict [("success", VBool false); ("error", VStr text)])
    /\ self_of (dispatch Fixtures.down (ExecuteCommand "SHOW TABLES")
                  (Agent.init Agent.default_url) fresh)
       = Agent.init Agent.default_url.
Proof.
  apply (dispatcher_folds_transport_failure Fixtures.down
           (ExecuteCommand "SHOW TABLES") (Agent.init Agent.default_url) fresh).
  - exact I.
  - intros msg [= <-]. discriminate.
Defined.

(** The three kinds of transport failure, each on one operation. *)
Example execute_select_on_error_status :
  result_of (Agent.execute_select
               (Fixtures.erring 500 "Internal Server Error") "SELECT 1"
               (Agent.init Agent.default_url) fresh)
  = Ret (VDict [("success", VBool false);
                ("error",
                 VStr "500 Server Error: Internal Server Error for url: http://localhost:8008/select")]).
Proof. reflexivity. Qed.

Example search_products_on_undecodable_body :
  result_of (Agent.search_products Fixtures.garbled "test" 3
               (Agent.init Agent.default_url) fresh)
  = Ret (VDict [("success", VBool false);
                ("error", VStr "Expecting value: line 1 column 1 (char 0)")]).
Proof. reflexivity. Qed.

Example execute_command_on_unreachable_service :
  result_of (Agent.execute_command Fixtures.down "SHOW TABLES"
               (Agent.init Agent.default_url) fresh)
  = Ret (VDict [("success", VBool false);
                ("error", VStr "Connection refused")]).
Proof. reflexivity. Qed.

(** ** [search_products] and its limit *)



(** ** Discovery is not cached *)

Lemma discovered_self_base_url u rp s :
  Agent.base_url (discovered_self u rp s) = Agent.base_url s.
Proof.
  unfold discovered_self.
  destruct rp as [msg|r]; [reflexivity|].
  destruct (http_error r u); [reflexivity|].
  destruct (content r) as [g|why]; [|reflexivity].
  destruct (get g "endpoints" (VDict [])); reflexivity.
Qed.

Lemma discovered_self_twice u rp s :
  discovered_self u rp (discovered_self u rp s) = discovered_self u rp s.
Proof.
  unfold discovered_self.
  destruct rp as [msg|r]; [reflexivity|].
  destruct (http_error r u); [reflexivity|].
  destruct (content r) as [g|why]; [|reflexivity].
  destruct (get g "endpoints" (VDict [])); reflexivity.
Qed.

(** C3 (as amended). Every call of [discover_api] fetches: two calls in a
    row make exactly two transport calls, both the GET of [/guide].  When
    the service gives the same reply to both, the second call returns what
    the first returned and leaves the fields as the first left them. *)
Theorem discover_api_twice_fetches_twice
  (net : service) (s : Agent.SMLGOAPIAgent) (w : world) :
  let guide := Request GET (Agent.base_url s ++ "/guide") [] None in
  let first := Agent.discover_api net s w in
  let second := Agent.discover_api net (self_of first) (world_of first) in
  sent (world_of second) = (sent w ++ [guide; guide])%list
  /\ (net (sent w) guide = net (sent w ++ [guide])%list guide ->
      result_of second = result_of first
      /\ self_of second = self_of first).
Proof.
  intros guide first second.
  assert (Hs : sent (world_of first) = (sent w ++ [guide])%list)
    by apply discover_api_calls.
  assert (Hself : self_of first
                  = discovered_self (Agent.base_url s ++ "/guide")
                      (net (sent w) guide) s)
    by apply discover_api_self.
  assert (Hu : Agent.base_url (self_of first) = Agent.base_url s).
  { rewrite Hself. apply discovered_self_base_url. }
  assert (Hg : AgentRequests.guide (self_of first) = guide).
  { unfold AgentRequests.guide. rewrite Hu. reflexivity. }
  assert (Hres2 := discover_api_result net (self_of first) (world_of first)).
  assert (Hself2 := discover_api_self net (self_of first) (world_of first)).
  assert (Hs2 := discover_api_calls net (self_of first) (world_of first)).
  fold second in Hres2, Hself2, Hs2.
  rewrite Hg, Hs, ?Hu in *.
  split.
  - rewrite Hs2, <- app_assoc. reflexivity.
  - intros Hsame. rewrite <- Hsame in *.
    rewrite Hres2, Hself2. split.
    + symmetry. apply discover_api_result.
    + rewrite Hself. apply discovered_self_twice.
Qed.

(** C3 at work: a service that always answers the same. *)
Lemma discover_api_twice_fetches_twice_witness :
  let net := Fixtures.answering (VDict [("api_name", VStr "SMLGOAPI")]) in
  let s := Agent.init Agent.default_url in
  let first := Agent.discover_api net s fresh in
  let second := Agent.discover_api net (self_of first) (world_of first) in
  result_of second = result_of first /\ self_of second = self_of first.
Proof.
  intros net s first second.
  apply (proj2 (discover_api_twice_fetches_twice net s fresh)).
  reflexivity.
Defined.

(** C3 as stated fails: the second call fetches again, and when the service
    has changed its document in between, the descriptor held after the
    second call is not the one held after the first. *)
Lemma discover_api_refetches :
  let v1 := VDict [("api_name", VStr "SMLGOAPI"); ("version", VStr "1.0")] in
  let v2 := VDict [("api_name", VStr "SMLGOAPI"); ("version", VStr "2.0")] in
  let net := Fixtures.changing v1 v2 in
  let s := Agent.init Agent.default_url in
  let first := Agent.discover_api net s fresh in
  let second := Agent.discover_api net (self_of first) (world_of first) in
  sent (world_of second)
  = [Request GET "http://localhost:8008/guide" [] None;
     Request GET "http://localhost:8008/guide" [] None]
  /\ result_of first = Ret true
  /\ result_of second = Ret true
  /\ Agent.guide_data (self_of first) = v1
  /\ Agent.guide_data (self_of second) = v2.
Proof. cbv zeta. repeat split; reflexivity. Qed.

(** ** A failed discovery *)

Lemma run_bind_ret {S A B} (m : M S A) (k : A -> M S B) s w a :
  result_of (m s w) = Ret a ->
  bind m k s w = k a (self_of (m s w)) (world_of (m s w)).
Proof.
  unfold bind, result_of, self_of, world_of.
  destruct (m s w) as [[o s'] w']. cbn. intros ->. reflexivity.
Qed.

(** The outcome of [discover_api] does not depend on what was printed
    before. *)
Lemma discover_api_result_printed net s w lines :
  result_of (Agent.discover_api net s (World (sent w) lines))
  = result_of (Agent.discover_api net s w).
Proof. rewrite !discover_api_result. reflexivity. Qed.

(** Every transport failure makes [discover_api] return [False]. *)
Lemma discover_api_fails_on_transport_failure net s w :
  transport_failure (Agent.base_url s ++ "/guide")
                    (net (sent w) (AgentRequests.guide s)) ->
  result_of (Agent.discover_api net s w) = Ret false.
Proof.
  intros H. rewrite discover_api_result. unfold discovers.
  destruct (net (sent w) (AgentRequests.guide s)) as [msg|r]; [reflexivity|].
  destruct (http_error r _) as [e|] eqn:E; [reflexivity|].
  destruct H as [H | [why H]]; [congruence|].
  rewrite H. reflexivity.
Qed.

(** C10. When the GET, the status check or the JSON decoding of
    [discover_api] fails, the method returns [False] and [guide_data] and
    [endpoints] (the whole object) are what they were before the call; and
    whenever the call changes the object, a response had arrived, its status
    was no error and its body was decoded. *)
Theorem discover_api_failure_keeps_fields
  (net : service) (s : Agent.SMLGOAPIAgent) (w : world) :
  let guide := Request GET (Agent.base_url s ++ "/guide") [] None in
  let run := Agent.discover_api net s w in
  (transport_failure (url guide) (net (sent w) guide) ->
   result_of run = Ret false
   /\ Agent.guide_data (self_of run) = Agent.guide_data s
   /\ Agent.endpoints (self_of run) = Agent.endpoints s
   /\ self_of run = s)
  /\ (self_of run <> s ->
      exists r g,
        net (sent w) guide = Answered r
        /\ http_error r (url guide) = None
        /\ content r = Json g).
Proof.
  intros guide run. unfold run.
  rewrite discover_api_result, discover_api_self.
  change (AgentRequests.guide s) with guide. cbn [url guide].
  unfold discovers, discovered_self.
  destruct (net (sent w) guide) as [msg|r].
  - split; [intros _; repeat split | intros H; congruence].
  - destruct (http_error r _) as [e|] eqn:E.
    + split; [intros _; repeat split | intros H; congruence].
    + destruct (content r) as [g|why] eqn:C.
      * split.
        -- cbn. intros [H | [why H]]; congruence.
        -- intros _. exists r, g. repeat split; assumption.
      * split; [intros _; repeat split | intros H; congruence].
Qed.

(** C10 at work: nobody listens, the fields of a fresh agent stay [None]. *)
Lemma discover_api_failure_keeps_fields_witness :
  let s := Agent.init Agent.default_url in
  let run := Agent.discover_api Fixtures.down s fresh in
  result_of run = Ret false
  /\ Agent.guide_data (self_of run) = VNone
  /\ Agent.endpoints (self_of run) = VNone
  /\ self_of run = s.
Proof.
  intros s run.
  apply (proj1 (discover_api_failure_keeps_fields Fixtures.down s fresh)).
  exact I.
Defined.

(** Beside C10: a body that is JSON but no mapping is decoded and assigned
    to [guide_data] before [.get] raises on it, so [discover_api] returns
    [False] with [guide_data] changed. *)
Remark discover_api_non_mapping_body :
  let s := Agent.init Agent.default_url in
  let run := Agent.discover_api (Fixtures.answering (VList [])) s fresh in
  result_of run = Ret false
  /\ Agent.guide_data (self_of run) = VList []
  /\ Agent.endpoints (self_of run) = VNone.
Proof. cbv zeta. repeat split; reflexivity. Qed.

(** C4. When [discover_api] returns [False], the demonstration and the
    interactive mode both return at once: the only request either has sent
    is the GET of [/guide], so no health, tables, command, select or search
    call follows, and the interactive mode reads no input (it returns
    whatever the keyboard would have delivered). *)
Theorem failed_discovery_ends_the_session
  (net : service) (s : Agent.SMLGOAPIAgent) (w : world)
  (keys : list Agent.keyboard) :
  result_of (Agent.discover_api net s w) = Ret false ->
  let guide := Request GET (Agent.base_url s ++ "/guide") [] None in
  let demo := Agent.demonstrate_capabilities net s w in
  let repl := Agent.interactive_mode net keys s w in
  result_of demo = Ret tt
  /\ sent (world_of demo) = (sent w ++ [guide])%list
  /\ result_of repl = Ret tt
  /\ sent (world_of repl) = (sent w ++ [guide])%list.
Proof.
  intros Hfail guide demo repl.
  unfold demo, repl, Agent.demonstrate_capabilities, Agent.interactive_mode.
  rewrite !run_print.
  repeat split;
    match goal with
    | |- context [bind _ _ s ?w'] =>
        let H := fresh "H" in
        let C := fresh "C" in
        assert (H : result_of (Agent.discover_api net s w') = Ret false)
          by (rewrite <- Hfail; apply (discover_api_result_printed net s w));
        assert (C := discover_api_calls net s w');
        cbn [sent] in C;
        rewrite (run_bind_ret _ _ _ _ _ H); cbn [negb];
        first [ reflexivity | exact C ]
    end.
Qed.

(** C4 at work: nobody listens; the line typed at the prompt is never read. *)
Lemma failed_discovery_ends_the_session_witness :
  let s := Agent.init Agent.default_url in
  let guide := Request GET "http://localhost:8008/guide" [] None in
  let demo := Agent.demonstrate_capabilities Fixtures.down s fresh in
  let repl := Agent.interactive_mode Fixtures.down [Agent.Typed "health"] s fresh in
  result_of demo = Ret tt
  /\ sent (world_of demo) = [guide]
  /\ result_of repl = Ret tt
  /\ sent (world_of repl) = [guide].
Proof.
  intros s guide demo repl.
  apply (failed_discovery_ends_the_session Fixtures.down s fresh
           [Agent.Typed "health"]).
  reflexivity.
Defined.

(** ** The health check *)

(** C7 (as amended). [check_health] answers with a boolean, so with two
    values, not three: it returns [True] exactly when the call got a
    response without an error status whose body is a JSON mapping with
    ["status"] equal to ["healthy"], and [False] in every other case, a
    status that is not ["healthy"] and a transport failure alike.  It never
    raises and leaves the object as it was. *)
Theorem check_health_is_two_valued
  (net : service) (s : Agent.SMLGOAPIAgent) (w : world) :
  let health := Request GET (Agent.base_url s ++ "/health") [] None in
  result_of (Agent.check_health net s w)
  = Ret (reports_healthy (url health) (net (sent w) health))
  /\ self_of (Agent.check_health net s w) = s.
Proof.
  cbv zeta. cbn [url].
  unfold Agent.check_health, Agent.requests_get, reports_healthy, decode.
  unfold_run. case_run; split; reflexivity.
Qed.

(** C7 as stated fails: an unreachable service and a service that reports
    the status ["degraded"] give the caller the same value. *)
Lemma check_health_conflates_unreachable_and_degraded :
  let s := Agent.init Agent.default_url in
  result_of (Agent.check_health Fixtures.down s fresh) = Ret false
  /\ result_of (Agent.check_health
                  (Fixtures.answering (VDict [("status", VStr "degraded")]))
                  s fresh) = Ret false
  /\ result_of (Agent.check_health
                  (Fixtures.answering (VDict [("status", VStr "healthy")]))
                  s fresh) = Ret true.
Proof. cbv zeta. repeat split; reflexivity. Qed.

(** ** Records returned and matches found *)



(** The same scenario in the demonstration: the method prints the nine
    matches found, its caller the two records returned. *)
Example demonstration_counts_records_and_matches_apart :
  let run := Agent.demonstrate_capabilities
               (Fixtures.smlgoapi Fixtures.tables_bare)
               (Agent.init Agent.default_url) fresh in
  result_of run = Ret tt
  /\ firstn 3 (skipn 29 (printed (world_of run)))
     = [Line "Searching products: '{}' (limit: {})" [VStr "test"; VInt 3];
        Line "Search completed: {} products found in {:.2f}ms"
             [VInt 9; VFloat 51 (-1)];
        Line "   Found {} products" [VInt 2]].
Proof. cbv zeta. split; reflexivity. Qed.

(** ** The two shapes of the tables response *)

(** The demonstration handles both shapes: it lists the tables of a wrapped
    response and shows a bare sequence as it is. *)
Example demonstration_lists_wrapped_tables :
  let run := Agent.demonstrate_capabilities
               (Fixtures.smlgoapi Fixtures.tables_wrapped)
               (Agent.init Agent.default_url) fresh in
  result_of run = Ret tt
  /\ firstn 5 (skipn 15 (printed (world_of run)))
     = [Line "Getting database tables..." [];
        Line "Found {} tables" [VInt 2];
        Line "Available Tables:" [];
        Line "   - {}" [VStr "products"];
        Line "   - {}" [VStr "orders"]].
Proof. cbv zeta. split; reflexivity. Qed.

Example demonstration_shows_bare_tables :
  let run := Agent.demonstrate_capabilities
               (Fixtures.smlgoapi Fixtures.tables_bare)
               (Agent.init Agent.default_url) fresh in
  result_of run = Ret tt
  /\ firstn 3 (skipn 15 (printed (world_of run)))
     = [Line "Getting database tables..." [];
        Line "Found {} tables" [VInt 2];
        Line "Tables response: {} - {}"
             [VStr "<class 'list'>"; VList [VStr "products"; VStr "orders"]]].
Proof. cbv zeta. split; reflexivity. Qed.

(** The interactive mode lists a bare sequence. *)
Example interactive_tables_lists_bare_sequence :
  let run := Agent.turn (Fixtures.smlgoapi Fixtures.tables_bare)
               (Agent.Typed "tables") (Agent.init Agent.default_url) fresh in
  result_of run = Ret Agent.Continue
  /\ printed (world_of run)
     = [Line "> " [];
        Line "Getting database tables..." [];
        Line "Found {} tables" [VInt 2];
        Line "   {}" [VStr "products"];
        Line "   {}" [VStr "orders"]].
Proof. cbv zeta. split; reflexivity. Qed.

(** C8, the interactive mode on the wrapped shape: [tables[:10]] is
    evaluated on the mapping and raises; the loop's handler prints the error
    and no table is listed. *)
Theorem interactive_tables_fails_on_wrapped_response :
  let run := Agent.turn (Fixtures.smlgoapi Fixtures.tables_wrapped)
               (Agent.Typed "tables") (Agent.init Agent.default_url) fresh in
  result_of run = Ret Agent.Continue
  /\ printed (world_of run)
     = [Line "> " [];
        Line "Getting database tables..." [];
        Line "Found {} tables" [VInt 2];
        Line "Error: {}" [VStr "unhashable type: 'slice'"]].
Proof. cbv zeta. split; reflexivity. Qed.

(** The same for every response of the wrapped shape, whatever the service
    and whatever it wraps. *)
Lemma interactive_tables_fails_on_every_mapping
  (net : service) (s : Agent.SMLGOAPIAgent) (w : world)
  (r : response) (kvs : list (string * value)) :
  net (sent w) (AgentRequests.tables s) = Answered r ->
  http_error r (Agent.base_url s ++ "/api/tables") = None ->
  content r = Json (VDict kvs) ->
  Agent.turn net (Agent.Typed "tables") s w
  = (Ret Agent.Continue, s,
     World (sent w ++ [AgentRequests.tables s])
           (printed w ++
            [Line "> " [];
             Line "Getting database tables..." [];
             Line "Found {} tables" [VInt (Z.of_nat (List.length kvs))];
             Line "Error: {}" [VStr "unhashable type: 'slice'"]])).
Proof.
  intros Hrp Hstatus Hbody.
  unfold Agent.turn, Agent.input, Agent.loop_handler.
  unfold_run.
  change (strip "tables") with "tables".
  unfold Agent.interpret.
  change (lower "tables") with "tables".
  unfold Agent.get_database_tables, Agent.requests_get, decode.
  unfold_run. cbn.
  unfold AgentRequests.tables in Hrp. rewrite Hrp. cbn.
  rewrite Hstatus. cbn. rewrite Hbody. cbn.
  rewrite <- !app_assoc. reflexivity.
Qed.

(** ** The three-level client *)

Lemma run_self_inner {S A B} (f : S -> M S A) (k : A -> M S B) s w :
  bind (bind self f) k s w = bind (f s) k s w.
Proof. reflexivity. Qed.

Ltac one_session_call :=
  rewrite try_sent by handlers_silent;
  repeat first [ rewrite run_self_inner | rewrite run_self ];
  rewrite send_then_silent by (intros; cbv beta; auto 60 with silent);
  reflexivity.

Section ThaiAdminFacts.
Import ThaiAdmin.
Variable net : service.

Lemma fetch_calls lvl api w :
  sent (world_of (fetch net lvl api w)) = (sent w ++ [level_request api lvl])%list.
Proof.
  destruct lvl; cbn [fetch level_request];
    unfold get_provinces, get_amphures, get_tambons, session_post;
    one_session_call.
Qed.

Lemma fetch_returns lvl api w :
  exists v, result_of (fetch net lvl api w) = Ret v
            /\ self_of (fetch net lvl api w) = api.
Proof.
  destruct lvl; cbn [fetch];
    unfold get_provinces, get_amphures, get_tambons, session_post, decode;
    unfold_run; case_run; eexists; split; reflexivity.
Qed.

Lemma fetch_on_failure lvl api w :
  let rq := level_request api lvl in
  transport_failure (url rq) (net (sent w) rq)
  \/ service_failure (url rq) (net (sent w) rq) ->
  result_of (fetch net lvl api w) = Ret (VList []).
Proof.
  intros rq [H | (r & kvs & Hrp & Hstatus & Hbody & Hok)]; subst rq.
  - destruct lvl; cbn [fetch level_request url] in *;
      unfold get_provinces, get_amphures, get_tambons, session_post, decode;
      unfold_run; cbn;
      (destruct (net _ _) as [msg|r]; [reflexivity|]);
      cbn in H |- *;
      match goal with
      | |- context [http_error r ?u] => case_status r u
      end; cbn; try reflexivity;
      (destruct H as [H | [why H]]; [congruence|]);
      rewrite H; reflexivity.
  - unfold success_field in Hok.
    destruct lvl; cbn [fetch level_request url] in *;
      unfold get_provinces, get_amphures, get_tambons, session_post, decode;
      unfold_run; cbn;
      rewrite Hrp; cbn; rewrite Hstatus; cbn; rewrite Hbody; cbn;
      rewrite Hok; reflexivity.
Qed.

Lemma fetch_on_success lvl api w kvs :
  let rq := level_request api lvl in
  service_success (url rq) (net (sent w) rq) kvs ->
  result_of (fetch net lvl api w)
  = Ret (match lookup "data" kvs with Some v => v | None => VList [] end).
Proof.
  intros rq (r & Hrp & Hstatus & Hbody & Hok); subst rq.
  unfold success_field in Hok.
  destruct lvl; cbn [fetch level_request url] in *;
    unfold get_provinces, get_amphures, get_tambons, session_post, decode;
    unfold_run; cbn;
    rewrite Hrp; cbn; rewrite Hstatus; cbn; rewrite Hbody; cbn;
    rewrite Hok; reflexivity.
Qed.

End ThaiAdminFacts.

(** C5 (as amended). The three fetches return a plain list, never a result
    record: on every failure, of the transport or reported by the service,
    [get_provinces], [get_amphures] and [get_tambons] return the empty list;
    they never raise and leave the client as it was; and a fetch that
    succeeds returns the ["data"] of the response, the empty list when the
    response has none, so an empty success and a failure return the same
    value. *)
Theorem thai_admin_failure_is_the_empty_list
  (net : service) (lvl : level) (api : ThaiAdmin.ThaiAdminAPI) (w : world) :
  let rq := level_request api lvl in
  let rp := net (sent w) rq in
  let run := fetch net lvl api w in
  (transport_failure (url rq) rp \/ service_failure (url rq) rp ->
   result_of run = Ret (VList []))
  /\ (forall kvs,
        service_success (url rq) rp kvs ->
        result_of run
        = Ret (match lookup "data" kvs with Some v => v | None => VList [] end))
  /\ (exists v, result_of run = Ret v /\ self_of run = api).
Proof.
  intros rq rp run. split; [|split].
  - apply fetch_on_failure.
  - intros kvs. apply fetch_on_success.
  - apply fetch_returns.
Qed.

(** C5 at work: nobody listens when the provinces are fetched. *)
Lemma thai_admin_failure_is_the_empty_list_witness :
  result_of (fetch Fixtures.down Provinces
               (ThaiAdmin.init "http://localhost:8008") fresh)
  = Ret (VList []).
Proof.
  apply (proj1 (thai_admin_failure_is_the_empty_list Fixtures.down Provinces
                  (ThaiAdmin.init "http://localhost:8008") fresh)).
  left. exact I.
Defined.

(** C5 as stated fails: an unreachable service, a service that reports a
    failure and a service that reports a success with no records all make
    [get_provinces] return the same empty list, which is no record with
    [success = False]. *)
Lemma thai_admin_failure_looks_like_empty_success :
  let api := ThaiAdmin.init "http://localhost:8008" in
  result_of (ThaiAdmin.get_provinces Fixtures.down api fresh) = Ret (VList [])
  /\ result_of (ThaiAdmin.get_provinces
                  (Fixtures.answering
                     (VDict [("success", VBool false);
                             ("error", VStr "database unavailable")]))
                  api fresh) = Ret (VList [])
  /\ result_of (ThaiAdmin.get_provinces
                  (Fixtures.answering
                     (VDict [("success", VBool true);
                             ("message", VStr "Retrieved 0 provinces");
                             ("data", VList [])]))
                  api fresh) = Ret (VList [])
  /\ get (VList []) "success" VNone
     = inl (Exn AttributeError "'list' object has no attribute 'get'").
Proof. cbv zeta. repeat split; reflexivity. Qed.

(** C6. [get_amphures] makes exactly one call, whose body carries the
    [province_id] it was given, as given; [get_tambons] makes exactly one
    call, whose body carries both the [amphure_id] and the [province_id] it
    was given, as given. *)
Theorem thai_admin_sends_identifiers_unchanged
  (net : service) (api : ThaiAdmin.ThaiAdminAPI) (w : world)
  (amphure_id province_id : Z) :
  sent (world_of (ThaiAdmin.get_amphures net province_id api w))
  = (sent w ++
     [Request POST (ThaiAdmin.base_url api ++ "/get/amphures")
              (ThaiAdmin.session api)
              (Some (VDict [("province_id", VInt province_id)]))])%list
  /\ sent (world_of (ThaiAdmin.get_tambons net amphure_id province_id api w))
     = (sent w ++
        [Request POST (ThaiAdmin.base_url api ++ "/get/tambons")
                 (ThaiAdmin.session api)
                 (Some (VDict [("amphure_id", VInt amphure_id);
                               ("province_id", VInt province_id)]))])%list.
Proof.
  split.
  - apply (fetch_calls net (Amphures province_id)).
  - apply (fetch_calls net (Tambons amphure_id province_id)).
Qed.

(** * More of the code: the methods as a whole, the loop, the scripts *)

(** ** Three more properties that compose: keeping the object, raising only
    exceptions, returning *)

Section Composition.
Context {S : Type}.
Variable net : service.

Lemma keeps_ret {A} (a : A) : keeps_self (S:=S) (ret a).
Proof. intros s w; reflexivity. Qed.

Lemma keeps_raise {A} (e : exn) : keeps_self (S:=S) (A:=A) (raise e).
Proof. intros s w; reflexivity. Qed.

Lemma keeps_lift {A} (x : exn + A) : keeps_self (S:=S) (lift x).
Proof. destruct x; intros s w; reflexivity. Qed.

Lemma keeps_get_self : keeps_self (S:=S) self.
Proof. intros s w; reflexivity. Qed.

Lemma keeps_print (t : string) (fs : list value) : keeps_self (S:=S) (print t fs).
Proof. intros s w; reflexivity. Qed.

Lemma keeps_send (r : request) : keeps_self (S:=S) (send net r).
Proof. intros s w. unfold send. destruct (net (sent w) r); reflexivity. Qed.

Lemma keeps_raise_for_status (r : response) (u : string) :
  keeps_self (S:=S) (raise_for_status r u).
Proof. unfold raise_for_status. destruct (http_error r u); intros s w; reflexivity. Qed.

Lemma keeps_bind {A B} (m : M S A) (k : A -> M S B) :
  keeps_self m -> (forall a, keeps_self (k a)) -> keeps_self (bind m k).
Proof.
  intros Hm Hk s w. unfold bind.
  specialize (Hm s w). destruct (m s w) as [[o s'] w']. cbn in Hm. subst s'.
  destruct o; cbn; try reflexivity. apply Hk.
Qed.

Lemma keeps_if {A} (b : bool) (m1 m2 : M S A) :
  keeps_self m1 -> keeps_self m2 -> keeps_self (if b then m1 else m2).
Proof. destruct b; trivial. Qed.

Lemma keeps_for_each {A} (xs : list A) (body : A -> M S unit) :
  (forall x, keeps_self (body x)) -> keeps_self (for_each xs body).
Proof.
  intros Hb. induction xs as [|x rest IH]; cbn [for_each].
  - apply keeps_ret.
  - apply keeps_bind; [apply Hb | intros _; exact IH].
Qed.

Lemma keeps_try {A} (m : M S A) (h : exn -> option (M S A)) :
  keeps_self m -> (forall e k, h e = Some k -> keeps_self k) ->
  keeps_self (try_ m h).
Proof.
  intros Hm Hh s w. unfold try_.
  specialize (Hm s w). destruct (m s w) as [[o s'] w']. cbn in Hm. subst s'.
  destruct o; cbn; try reflexivity.
  destruct (h e) as [k|] eqn:E; [|reflexivity].
  apply (Hh _ _ E).
Qed.

Lemma keeps_try_except {A} (m : M S A) (k : exn -> M S A) :
  keeps_self m -> (forall e, keeps_self (k e)) ->
  keeps_self (try_ m (except_Exception k)).
Proof.
  intros Hm Hk. apply keeps_try; [exact Hm|].
  intros e h. unfold except_Exception.
  destruct (is_Exception e); [|discriminate]. intros [= <-]. apply Hk.
Qed.

Lemma keeps_with_object {T A} (obj : T) (m : M T A) :
  keeps_self (S:=S) (with_object obj m).
Proof.
  intros s w. unfold with_object. destruct (m obj w) as [[o t] w']. reflexivity.
Qed.

Lemma silent_with_object {T A} (obj : T) (m : M T A) :
  silent m -> silent (S:=S) (with_object obj m).
Proof.
  intros Hm s w. unfold with_object. specialize (Hm obj w).
  destruct (m obj w) as [[o t] w']. exact Hm.
Qed.

Lemma silent_try_except {A} (m : M S A) (k : exn -> M S A) :
  silent m -> (forall e, silent (k e)) -> silent (try_ m (except_Exception k)).
Proof.
  intros Hm Hk s w. rewrite try_sent; [apply Hm|].
  intros e h H. apply (silent_except k e h Hk H).
Qed.

Lemma ordinary_ret {A} (a : A) : ordinary (S:=S) (ret a).
Proof. intros s w; exact I. Qed.

Lemma ordinary_raise {A} (e : exn) :
  is_Exception e = true -> ordinary (S:=S) (A:=A) (raise e).
Proof. intros H s w; exact H. Qed.

Lemma ordinary_lift {A} (x : exn + A) : exceptional x -> ordinary (S:=S) (lift x).
Proof.
  intros H s w. destruct x as [e|a]; cbn; [apply H; reflexivity | exact I].
Qed.

Lemma ordinary_self : ordinary (S:=S) self.
Proof. intros s w; exact I. Qed.

Lemma ordinary_update (f : S -> S) : ordinary (update f).
Proof. intros s w; exact I. Qed.

Lemma ordinary_print (t : string) (fs : list value) : ordinary (S:=S) (print t fs).
Proof. intros s w; exact I. Qed.

Lemma ordinary_send (r : request) : ordinary (S:=S) (send net r).
Proof. intros s w. unfold send. destruct (net (sent w) r); cbn; trivial. Qed.

Lemma ordinary_raise_for_status (r : response) (u : string) :
  ordinary (S:=S) (raise_for_status r u).
Proof.
  intros s w. unfold raise_for_status.
  destruct (http_error r u) as [e|] eqn:E; cbn; [|exact I].
  apply http_error_raises in E as (msg & -> & _). reflexivity.
Qed.

Lemma ordinary_bind {A B} (m : M S A) (k : A -> M S B) :
  ordinary m -> (forall a, ordinary (k a)) -> ordinary (bind m k).
Proof.
  intros Hm Hk s w. unfold bind.
  specialize (Hm s w). destruct (m s w) as [[o s'] w']. cbn in Hm.
  destruct o; cbn; try assumption. apply Hk.
Qed.

Lemma ordinary_if {A} (b : bool) (m1 m2 : M S A) :
  ordinary m1 -> ordinary m2 -> ordinary (if b then m1 else m2).
Proof. destruct b; trivial. Qed.

Lemma ordinary_for_each {A} (xs : list A) (body : A -> M S unit) :
  (forall x, ordinary (body x)) -> ordinary (for_each xs body).
Proof.
  intros Hb. induction xs as [|x rest IH]; cbn [for_each].
  - apply ordinary_ret.
  - apply ordinary_bind; [apply Hb | intros _; exact IH].
Qed.

Lemma returns_ordinary {A} (m : M S A) : returns m -> ordinary m.
Proof. intros H s w. destruct (H s w) as [a ->]. exact I. Qed.

Lemma ordinary_with_object {T A} (obj : T) (m : M T A) :
  ordinary m -> ordinary (S:=S) (with_object obj m).
Proof.
  intros Hm s w. unfold with_object. specialize (Hm obj w).
  destruct (m obj w) as [[o t] w']. exact Hm.
Qed.

Lemma returns_ret {A} (a : A) : returns (S:=S) (ret a).
Proof. intros s w; eexists; reflexivity. Qed.

Lemma returns_print (t : string) (fs : list value) : returns (S:=S) (print t fs).
Proof. intros s w; eexists; reflexivity. Qed.

Lemma returns_bind {A B} (m : M S A) (k : A -> M S B) :
  returns m -> (forall a, returns (k a)) -> returns (bind m k).
Proof.
  intros Hm Hk s w. unfold bind.
  destruct (Hm s w) as [a Ha]. destruct (m s w) as [[o s'] w']. cbn in Ha.
  subst o. apply Hk.
Qed.

Lemma returns_if {A} (b : bool) (m1 m2 : M S A) :
  returns m1 -> returns m2 -> returns (if b then m1 else m2).
Proof. destruct b; trivial. Qed.

(** [try: m except Exception: k] returns whenever [m] is ordinary and the
    handler returns. *)
Lemma returns_try_except {A} (m : M S A) (k : exn -> M S A) :
  ordinary m -> (forall e, returns (k e)) ->
  returns (try_ m (except_Exception k)).
Proof.
  intros Hm Hk s w. unfold try_, except_Exception.
  specialize (Hm s w). destruct (m s w) as [[o s'] w']. cbn in Hm.
  destruct o as [a|e|]; cbn.
  - eexists; reflexivity.
  - rewrite Hm. apply Hk.
  - contradiction.
Qed.

Lemma returns_with_object {T A} (obj : T) (m : M T A) :
  returns m -> returns (S:=S) (with_object obj m).
Proof.
  intros Hm s w. unfold with_object. destruct (Hm obj w) as [a Ha].
  destruct (m obj w) as [[o t] w']. exists a. exact Ha.
Qed.

End Composition.

(** The built-ins raise exceptions only. *)
Lemma exceptional_get v k d : exceptional (get v k d).
Proof. destruct v; intros ? [= <-]; reflexivity. Qed.

Lemma exceptional_keys v : exceptional (keys v).
Proof. destruct v; intros ? [= <-]; reflexivity. Qed.

Lemma exceptional_len v : exceptional (len v).
Proof. destruct v; intros ? [= <-]; reflexivity. Qed.

Lemma exceptional_slice_to v n : exceptional (slice_to v n).
Proof. destruct v; intros ? [= <-]; reflexivity. Qed.

Lemma exceptional_item0 v : exceptional (item0 v).
Proof. destruct v as [| | | |[|c s]|[|x xs]|]; intros ? [= <-]; reflexivity. Qed.

Lemma exceptional_iter v : exceptional (iter v).
Proof. destruct v; intros ? [= <-]; reflexivity. Qed.

Lemma exceptional_format_2f v : exceptional (format_2f v).
Proof. destruct v; intros ? [= <-]; reflexivity. Qed.

Lemma exceptional_decode r : exceptional (decode r).
Proof. unfold decode. destruct (content r); intros ? [= <-]; reflexivity. Qed.

Lemma exceptional_item v k : exceptional (PyMore.item v k).
Proof.
  destruct v; cbn; try (intros ? [= <-]; reflexivity).
  destruct (lookup k kvs); intros ? [= <-]; reflexivity.
Qed.

Lemma exceptional_format_2d v : exceptional (PyMore.format_2d v).
Proof. destruct v; intros ? [= <-]; reflexivity. Qed.

Lemma exceptional_contains t v : exceptional (PyMore.contains t v).
Proof. destruct v; intros ? [= <-]; reflexivity. Qed.

Create HintDb keeps.
Create HintDb ordinary.

#[export] Hint Resolve keeps_ret keeps_raise keeps_lift keeps_get_self
  keeps_print keeps_send keeps_raise_for_status keeps_if keeps_for_each
  keeps_with_object : keeps.
#[export] Hint Extern 2 (keeps_self (bind _ _)) =>
  apply keeps_bind; [ | intros ?; cbv beta ] : keeps.
#[export] Hint Extern 2 (keeps_self (try_ _ (except_Exception _))) =>
  apply keeps_try_except; [ | intros ?; cbv beta ] : keeps.
#[export] Hint Extern 3 (keeps_self (match ?x with _ => _ end)) =>
  destruct x : keeps.

#[export] Hint Resolve silent_with_object : silent.
#[export] Hint Extern 2 (silent (try_ _ (except_Exception _))) =>
  apply silent_try_except; [ | intros ?; cbv beta ] : silent.

#[export] Hint Resolve ordinary_ret ordinary_self ordinary_update
  ordinary_print ordinary_send ordinary_raise_for_status ordinary_if
  ordinary_for_each ordinary_with_object
  exceptional_get exceptional_keys exceptional_len exceptional_slice_to
  exceptional_item0 exceptional_iter exceptional_format_2f exceptional_decode
  exceptional_item exceptional_format_2d exceptional_contains
  returns_ret returns_print returns_if returns_with_object : ordinary.
#[export] Hint Extern 1 (ordinary (lift _)) => apply ordinary_lift : ordinary.
#[export] Hint Extern 2 (ordinary (bind _ _)) =>
  apply ordinary_bind; [ | intros ?; cbv beta ] : ordinary.
#[export] Hint Extern 2 (returns (bind _ _)) =>
  apply returns_bind; [ | intros ?; cbv beta ] : ordinary.
#[export] Hint Extern 2 (returns (try_ _ (except_Exception _))) =>
  apply returns_try_except; [ | intros ?; cbv beta ] : ordinary.
#[export] Hint Extern 3 (ordinary (match ?x with _ => _ end)) =>
  destruct x : ordinary.
#[export] Hint Extern 3 (returns (match ?x with _ => _ end)) =>
  destruct x : ordinary.

(** ** The methods of the agent, as a whole *)

Ltac method_keeps := intros; unfold Agent.requests_get, Agent.requests_post; auto 60 with keeps.
Ltac method_returns := intros; unfold Agent.requests_get, Agent.requests_post; auto 60 with ordinary.

Section AgentMethods.
Import Agent.
Variable net : service.

Lemma discover_api_returns : returns (discover_api net).
Proof. unfold discover_api. method_returns. Qed.

Lemma check_health_returns : returns (check_health net).
Proof. unfold check_health. method_returns. Qed.

Lemma check_health_keeps : keeps_self (check_health net).
Proof. unfold check_health. method_keeps. Qed.

Lemma execute_command_returns sql : returns (execute_command net sql).
Proof. unfold execute_command. method_returns. Qed.

Lemma execute_command_keeps sql : keeps_self (execute_command net sql).
Proof. unfold execute_command. method_keeps. Qed.

Lemma execute_select_returns sql : returns (execute_select net sql).
Proof. unfold execute_select. method_returns. Qed.

Lemma execute_select_keeps sql : keeps_self (execute_select net sql).
Proof. unfold execute_select. method_keeps. Qed.

Lemma search_products_returns term limit : returns (search_products net term limit).
Proof. unfold search_products. method_returns. Qed.

Lemma search_products_keeps term limit : keeps_self (search_products net term limit).
Proof. unfold search_products. method_keeps. Qed.

Lemma get_database_tables_returns : returns (get_database_tables net).
Proof. unfold get_database_tables. method_returns. Qed.

Lemma get_database_tables_keeps : keeps_self (get_database_tables net).
Proof. unfold get_database_tables. method_keeps. Qed.

End AgentMethods.

Section AgentAnswers.
Import Agent.
Variable net : service.

Lemma execute_command_mapping sql s w :
  exists kvs, result_of (execute_command net sql s w) = Ret (VDict kvs).
Proof.
  unfold execute_command, requests_post, decode, failure. unfold_run.
  case_run; eexists; reflexivity.
Qed.

Lemma execute_select_mapping sql s w :
  exists kvs, result_of (execute_select net sql s w) = Ret (VDict kvs).
Proof.
  unfold execute_select, requests_post, decode, failure. unfold_run.
  case_run; eexists; reflexivity.
Qed.

Lemma search_products_mapping term limit s w :
  exists kvs, result_of (search_products net term limit s w) = Ret (VDict kvs).
Proof.
  unfold search_products, requests_post, decode, failure. unfold_run.
  case_run; eexists; reflexivity.
Qed.

End AgentAnswers.

(** X1. Whatever the service does, [execute_command], [execute_select] and
    [search_products] return a mapping (so the caller's [result.get] cannot
    fail), never raise, and leave the agent as it was. *)
Theorem dispatch_always_returns_a_mapping
  (net : service) (op : operation) (s : Agent.SMLGOAPIAgent) (w : world) :
  (exists kvs, result_of (dispatch net op s w) = Ret (VDict kvs))
  /\ self_of (dispatch net op s w) = s.
Proof.
  destruct op; cbn [dispatch]; split.
  - apply execute_command_mapping.
  - apply execute_command_keeps.
  - apply execute_select_mapping.
  - apply execute_select_keeps.
  - apply search_products_mapping.
  - apply search_products_keeps.
Qed.

(** X2. A failure the service reports is passed on as it is: when the
    answer is a JSON mapping whose [success] is missing or falsy, each of
    the three operations returns that very mapping, and the last line it
    prints shows the mapping's [error] field. *)
Theorem dispatch_passes_service_failure_on
  (net : service) (op : operation) (s : Agent.SMLGOAPIAgent) (w : world)
  (kvs : list (string * value)) :
  answered_with net w (request_of s op) kvs ->
  truthy (success_field kvs) = false ->
  result_of (dispatch net op s w) = Ret (VDict kvs)
  /\ last (printed (world_of (dispatch net op s w))) (Line "" [])
     = Line (match op with
             | ExecuteCommand _ => "Command failed: {}"
             | ExecuteSelect _ => "Query failed: {}"
             | Search _ _ => "Search failed: {}"
             end)
            [match lookup "error" kvs with Some e => e | None => VNone end].
Proof.
  intros (r & Hrp & Hstatus & Hbody) Hok. unfold success_field in Hok.
  destruct op; cbn [dispatch request_of url] in *;
    unfold Agent.execute_command, Agent.execute_select, Agent.search_products,
      Agent.requests_post, decode;
    unfold AgentRequests.command, AgentRequests.select, AgentRequests.search in *;
    cbn [url] in *; unfold_run; cbn;
    rewrite Hrp; cbn; rewrite Hstatus; cbn; rewrite Hbody; cbn;
    rewrite Hok; cbn; rewrite last_last; split; reflexivity.
Qed.

Lemma dispatch_passes_service_failure_on_witness :
  result_of (dispatch
               (Fixtures.answering
                  (VDict [("success", VBool false);
                          ("error", VStr "syntax error")]))
               (ExecuteSelect "SELEC 1") (Agent.init Agent.default_url) fresh)
  = Ret (VDict [("success", VBool false); ("error", VStr "syntax error")])
  /\ last (printed (world_of
             (dispatch
                (Fixtures.answering
                   (VDict [("success", VBool false);
                           ("error", VStr "syntax error")]))
                (ExecuteSelect "SELEC 1") (Agent.init Agent.default_url) fresh)))
          (Line "" [])
     = Line "Query failed: {}" [VStr "syntax error"].
Proof.
  apply (dispatch_passes_service_failure_on
           (Fixtures.answering
              (VDict [("success", VBool false); ("error", VStr "syntax error")]))
           (ExecuteSelect "SELEC 1") (Agent.init Agent.default_url) fresh
           [("success", VBool false); ("error", VStr "syntax error")]).
  - eexists. repeat split; reflexivity.
  - reflexivity.
Defined.



(** X4. A success whose [duration_ms] is no number is turned into a
    failure: formatting it for the progress line raises inside the [try],
    and [execute_command] and [execute_select] return
    [{"success": False, "error": ...}] with the text of the formatting
    error, although the service reported success. *)
Theorem untimed_success_is_reported_as_failure
  (net : service) (op : operation) (s : Agent.SMLGOAPIAgent) (w : world)
  (kvs : list (string * value)) :
  top_level_duration op = true ->
  answered_with net w (request_of s op) kvs ->
  truthy (success_field kvs) = true ->
  is_number (duration_field kvs) = false ->
  exists e,
    format_2f (duration_field kvs) = inl e
    /\ result_of (dispatch net op s w)
       = Ret (VDict [("success", VBool false); ("error", VStr (str e))]).
Proof.
  intros Hop (r & Hrp & Hstatus & Hbody) Hok Hnum.
  unfold success_field in Hok. unfold duration_field in *.
  destruct (format_2f (match lookup "duration_ms" kvs with
                       | Some d => d | None => VInt 0 end)) as [e|v] eqn:F.
  2:{ destruct (match lookup "duration_ms" kvs with
                | Some d => d | None => VInt 0 end);
        cbn in F, Hnum; discriminate. }
  exists e. split; [reflexivity|].
  assert (He : is_Exception e = true) by (apply (exceptional_format_2f _ _ F)).
  destruct op; try discriminate Hop; cbn [dispatch request_of url] in *;
    unfold Agent.execute_command, Agent.execute_select, Agent.requests_post, decode;
    unfold AgentRequests.command, AgentRequests.select in *;
    cbn [url] in *; unfold_run; cbn;
    rewrite Hrp; cbn; rewrite Hstatus; cbn; rewrite Hbody; cbn;
    rewrite Hok; cbn; rewrite F; cbn;
    unfold is_Exception in He; rewrite He; reflexivity.
Qed.

Lemma untimed_success_is_reported_as_failure_witness :
  exists e,
    format_2f (duration_field [("success", VBool true);
                               ("duration_ms", VStr "12ms")]) = inl e
    /\ result_of (dispatch
                    (Fixtures.answering
                       (VDict [("success", VBool true);
                               ("duration_ms", VStr "12ms")]))
                    (ExecuteCommand "SHOW TABLES")
                    (Agent.init Agent.default_url) fresh)
       = Ret (VDict [("success", VBool false); ("error", VStr (str e))]).
Proof.
  apply (untimed_success_is_reported_as_failure
           (Fixtures.answering
              (VDict [("success", VBool true); ("duration_ms", VStr "12ms")]))
           (ExecuteCommand "SHOW TABLES") (Agent.init Agent.default_url) fresh
           [("success", VBool true); ("duration_ms", VStr "12ms")]);
    try reflexivity.
  eexists. repeat split; reflexivity.
Defined.

(** X5. No method of the agent retries or calls twice: whatever the reply,
    [discover_api], [check_health], [execute_command], [execute_select] and
    [get_database_tables] each add exactly one request to the log, the one
    to their own path. *)
Theorem agent_methods_call_exactly_once
  (net : service) (sql : string) (s : Agent.SMLGOAPIAgent) (w : world) :
  sent (world_of (Agent.discover_api net s w))
  = (sent w ++ [Request GET (Agent.base_url s ++ "/guide") [] None])%list
  /\ sent (world_of (Agent.check_health net s w))
     = (sent w ++ [Request GET (Agent.base_url s ++ "/health") [] None])%list
  /\ sent (world_of (Agent.execute_command net sql s w))
     = (sent w ++
        [Request POST (Agent.base_url s ++ "/command")
                 [("Content-Type", "application/json")]
                 (Some (VDict [("query", VStr sql)]))])%list
  /\ sent (world_of (Agent.execute_select net sql s w))
     = (sent w ++
        [Request POST (Agent.base_url s ++ "/select")
                 [("Content-Type", "application/json")]
                 (Some (VDict [("query", VStr sql)]))])%list
  /\ sent (world_of (Agent.get_database_tables net s w))
     = (sent w ++ [Request GET (Agent.base_url s ++ "/api/tables") [] None])%list.
Proof.
  repeat split.
  - apply discover_api_calls.
  - apply check_health_calls.
  - apply execute_command_calls.
  - apply execute_select_calls.
  - apply get_database_tables_calls.
Qed.

(** X6. [get_database_tables] never raises and leaves the agent as it was;
    it returns the decoded body when that is a string, a list or a mapping,
    and the empty list in every other case: no response, an error status, a
    body that is no JSON, and a body that is [null], a boolean or a number
    (which has no [len]). *)
Theorem get_database_tables_returns_body_or_empty_list
  (net : service) (s : Agent.SMLGOAPIAgent) (w : world) :
  let rq := Request GET (Agent.base_url s ++ "/api/tables") [] None in
  result_of (Agent.get_database_tables net s w)
  = Ret (tables_of (url rq) (net (sent w) rq))
  /\ self_of (Agent.get_database_tables net s w) = s.
Proof.
  cbv zeta. cbn [url].
  unfold Agent.get_database_tables, Agent.requests_get, tables_of, decode.
  unfold_run. case_run; split; reflexivity.
Qed.

(** X7. [discover_api] returns [True] exactly when the guide arrives
    without an error status as a JSON mapping whose ["endpoints"] is missing
    or is a mapping; it then holds that mapping in [guide_data] and its
    ["endpoints"], or the empty mapping when missing, in [endpoints]; the
    other keys of the guide are not required. *)
Theorem discover_api_succeeds_exactly_on_a_mapping
  (net : service) (s : Agent.SMLGOAPIAgent) (w : world) :
  let rq := Request GET (Agent.base_url s ++ "/guide") [] None in
  let run := Agent.discover_api net s w in
  (result_of run = Ret true <->
   exists kvs, answered_with net w rq kvs
               /\ isinstance_dict (endpoints_field kvs) = true)
  /\ (forall kvs,
        answered_with net w rq kvs ->
        isinstance_dict (endpoints_field kvs) = true ->
        self_of run
        = Agent.Self (Agent.base_url s) (VDict kvs) (endpoints_field kvs)).
Proof.
  intros rq run. unfold run.
  rewrite discover_api_result, discover_api_self.
  change (AgentRequests.guide s) with rq.
  unfold discovers, discovered_self, answered_with, endpoints_field.
  cbn [url rq].
  split; [split|].
  - destruct (net (sent w) rq) as [msg|r]; [discriminate|].
    destruct (http_error r _) as [e|] eqn:E; [discriminate|].
    destruct (content r) as [g|why] eqn:C; [|discriminate].
    destruct g; try discriminate. cbn.
    intros H. exists kvs. split; [exists r; repeat split; assumption|].
    destruct (lookup "endpoints" kvs) as [e|]; [|reflexivity].
    destruct e; cbn in H |- *; congruence.
  - intros (kvs & (r & -> & -> & ->) & He). cbn.
    destruct (lookup "endpoints" kvs) as [e|]; [|reflexivity].
    destruct e; cbn in He |- *; congruence.
  - intros kvs (r & -> & -> & ->) He. cbn. reflexivity.
Qed.

Lemma discover_api_succeeds_exactly_on_a_mapping_witness :
  self_of (Agent.discover_api (Fixtures.smlgoapi Fixtures.tables_bare)
             (Agent.init Agent.default_url) fresh)
  = Agent.Self "http://localhost:8008"
      (VDict [("api_name", VStr "SMLGOAPI"); ("version", VStr "1.0");
              ("endpoints", VDict [("health", VDict []); ("select", VDict [])])])
      (VDict [("health", VDict []); ("select", VDict [])]).
Proof.
  apply (proj2 (discover_api_succeeds_exactly_on_a_mapping
                  (Fixtures.smlgoapi Fixtures.tables_bare)
                  (Agent.init Agent.default_url) fresh)
           [("api_name", VStr "SMLGOAPI"); ("version", VStr "1.0");
            ("endpoints", VDict [("health", VDict []); ("select", VDict [])])]).
  - eexists. repeat split; reflexivity.
  - reflexivity.
Defined.

(** ** The interactive loop *)

#[export] Hint Resolve check_health_returns execute_command_returns
  execute_select_returns search_products_returns get_database_tables_returns
  discover_api_returns : ordinary.
#[export] Hint Extern 5 (ordinary _) => apply returns_ordinary : ordinary.
#[export] Hint Resolve check_health_keeps execute_command_keeps
  execute_select_keeps search_products_keeps get_database_tables_keeps : keeps.

(** A silent continuation adds nothing to what the first part has sent. *)
Lemma bind_silent_tail {S A B} (m : M S A) (k : A -> M S B) s w :
  (forall a, silent (k a)) ->
  sent (world_of (bind m k s w)) = sent (world_of (m s w)).
Proof.
  intros Hk. unfold bind. destruct (m s w) as [[o s'] w'].
  destruct o; cbn; try reflexivity. apply Hk.
Qed.




Section Loop.
Import Agent.
Variable net : service.

Lemma run_input_typed {A} text (k : string -> M SMLGOAPIAgent A) s w :
  bind (input (Typed text)) k s w
  = k text s (World (sent w) (printed w ++ [Line "> " []])).
Proof. reflexivity. Qed.

Lemma interpret_ordinary text : ordinary (interpret net text).
Proof.
  unfold interpret, search_products_default, print_indented.
  auto 60 with ordinary.
Qed.

Lemma interpret_keeps text : keeps_self (interpret net text).
Proof.
  unfold interpret, search_products_default, print_indented.
  auto 60 with keeps.
Qed.

Lemma turn_keeps k : keeps_self (turn net k).
Proof.
  unfold turn. apply keeps_try.
  - unfold input. destruct k; auto using interpret_keeps with keeps.
  - intros e h. unfold loop_handler, except_Exception, is_Exception.
    destruct (exn_class_of e); cbn; intros [= <-]; auto 10 with keeps.
Qed.

Lemma turn_returns k : returns (turn net k).
Proof.
  intros s w. unfold turn, try_.
  destruct k as [text|].
  - assert (H : ordinary (raw <- input (Typed text) ;; interpret net (strip raw))%run).
    { unfold input. auto using interpret_ordinary with ordinary. }
    specialize (H s w).
    destruct ((raw <- input (Typed text) ;; interpret net (strip raw))%run s w)
      as [[o s'] w'].
    cbn in H. destruct o as [f|e|]; [eexists; reflexivity| |contradiction].
    unfold loop_handler, except_Exception.
    unfold is_Exception in *. destruct (exn_class_of e);
      try discriminate H; eexists; reflexivity.
  - eexists. reflexivity.
Qed.

Lemma loop_handler_silent e h : loop_handler e = Some h -> silent h.
Proof.
  unfold loop_handler, except_Exception, is_Exception.
  destruct (exn_class_of e); cbn; intros [= <-]; auto 10 with silent.
Qed.

Lemma turn_sent k s w :
  exists rs,
    sent (world_of (turn net k s w)) = (sent w ++ rs)%list
    /\ (rs = [] \/ exists r, rs = [r] /\ loop_request s r).
Proof.
  unfold turn. rewrite try_sent by apply loop_handler_silent.
  destruct k as [text|]; [|exists []; split; [symmetry; apply app_nil_r | left; reflexivity]].
  rewrite run_input_typed.
  match goal with |- context [interpret net _ s ?w'] => change (sent w) with (sent w'); generalize w' end.
  intros w'.
  generalize (strip text). intros user_input. unfold interpret.
  set (low := lower user_input).
  destruct (orb _ _).
  { exists []. split; [symmetry; apply app_nil_r | left; reflexivity]. }
  destruct (low =? "health").
  { eexists. rewrite bind_silent_tail by (intros; auto with silent).
    rewrite check_health_calls. split; [reflexivity|].
    right. eexists; split; [reflexivity|]. left. reflexivity. }
  destruct (low =? "tables").
  { eexists. rewrite bind_silent_tail by (intros; cbv beta; unfold print_indented; auto 20 with silent).
    rewrite get_database_tables_calls. split; [reflexivity|].
    right. eexists; split; [reflexivity|]. right; left. reflexivity. }
  destruct (startswith low "command ").
  { eexists. rewrite bind_silent_tail by (intros; cbv beta; auto 20 with silent).
    rewrite execute_command_calls. split; [reflexivity|].
    right. eexists; split; [reflexivity|]. right; right; left.
    eexists; reflexivity. }
  destruct (startswith low "select ").
  { eexists. rewrite bind_silent_tail by (intros; cbv beta; unfold print_indented; auto 30 with silent).
    rewrite execute_select_calls. split; [reflexivity|].
    right. eexists; split; [reflexivity|]. right; right; right; left.
    eexists; reflexivity. }
  destruct (startswith low "search ").
  { eexists. rewrite bind_silent_tail by (intros; cbv beta; unfold print_indented; auto 30 with silent).
    unfold search_products_default. rewrite search_products_calls.
    split; [reflexivity|].
    right. eexists; split; [reflexivity|]. right; right; right; right.
    eexists; reflexivity. }
  exists []. split; [symmetry; apply app_nil_r | left; reflexivity].
Qed.

End Loop.

(** What ends the session breaks the loop. *)
Lemma turn_breaks_at_session_end
  (net : service) (k : Agent.keyboard) (s : Agent.SMLGOAPIAgent) (w : world) :
  ends_session k = true -> result_of (Agent.turn net k s w) = Ret Agent.Break.
Proof.
  intros H. destruct k as [text|]; cbn [ends_session] in H; [|reflexivity].
  unfold Agent.turn, try_. rewrite run_input_typed.
  unfold Agent.interpret. cbv zeta. rewrite H. reflexivity.
Qed.

(** X8. A line that is [quit], [exit] or [q] in any case and with any
    blanks around it, and Ctrl-C at the prompt, end the session alike: the
    turn prints the farewell, makes no transport call, leaves the agent as
    it was and breaks the loop. *)
Theorem quit_and_interrupt_break_the_loop
  (net : service) (k : Agent.keyboard) (s : Agent.SMLGOAPIAgent) (w : world) :
  ends_session k = true ->
  Agent.turn net k s w
  = (Ret Agent.Break, s,
     World (sent w) (printed w ++ [Line "> " []; Line "Goodbye!" []])).
Proof.
  intros H. destruct k as [text|]; cbn [ends_session] in H.
  - unfold Agent.turn, try_. rewrite run_input_typed.
    unfold Agent.interpret. cbv zeta. rewrite H.
    cbn. rewrite <- app_assoc. reflexivity.
  - cbn. rewrite <- app_assoc. reflexivity.
Qed.

Lemma quit_and_interrupt_break_the_loop_witness :
  Agent.turn Fixtures.down (Agent.Typed "  Exit ")
             (Agent.init Agent.default_url) fresh
  = (Ret Agent.Break, Agent.init Agent.default_url,
     World [] [Line "> " []; Line "Goodbye!" []]).
Proof.
  apply (quit_and_interrupt_break_the_loop Fixtures.down
           (Agent.Typed "  Exit ") (Agent.init Agent.default_url) fresh).
  reflexivity.
Defined.



(** X10. One turn of the loop, whatever is typed and whatever the service
    does, never raises, leaves the agent as it was, and makes at most one
    transport call, which is one of the five operations of the loop. *)
Theorem a_turn_makes_at_most_one_call
  (net : service) (k : Agent.keyboard) (s : Agent.SMLGOAPIAgent) (w : world) :
  (exists f, result_of (Agent.turn net k s w) = Ret f)
  /\ self_of (Agent.turn net k s w) = s
  /\ exists rs,
       sent (world_of (Agent.turn net k s w)) = (sent w ++ rs)%list
       /\ (rs = [] \/ exists r, rs = [r] /\ loop_request s r).
Proof.
  split; [apply turn_returns | split; [apply turn_keeps | apply turn_sent]].
Qed.

(** X11. The loop as a whole, for every keyboard and every service: it
    never raises (it returns or, with the keyboard exhausted, goes on for
    ever), it leaves the agent as discovery left it, it makes at most one
    transport call for each line read, and each call is one of the five
    operations of the loop, so the guide is never fetched again. *)
Theorem the_loop_keeps_the_agent_and_calls_once_per_line
  (net : service) (keys : list Agent.keyboard)
  (s : Agent.SMLGOAPIAgent) (w : world) :
  let run := Agent.interactive_loop net keys s w in
  (result_of run = Ret tt \/ result_of run = Diverge)
  /\ self_of run = s
  /\ exists rs,
       sent (world_of run) = (sent w ++ rs)%list
       /\ List.length rs <= List.length keys
       /\ Forall (loop_request s) rs.
Proof.
  cbv zeta. revert w.
  induction keys as [|k rest IH]; intros w; cbn [Agent.interactive_loop].
  - split; [right; reflexivity|]. split; [reflexivity|].
    exists []. split; [symmetry; apply app_nil_r|]. split; [apply le_n | constructor].
  - destruct (turn_returns net k s w) as [f Hf].
    destruct (turn_sent net k s w) as (rs1 & Hs1 & Hrs1).
    assert (Hk := turn_keeps net k s w).
    rewrite (run_bind_ret _ _ _ _ _ Hf). rewrite Hk.
    destruct f.
    + destruct (IH (world_of (Agent.turn net k s w))) as (Hr & Hself & rs2 & Hs2 & Hlen & Hall).
      split; [exact Hr|]. split; [exact Hself|].
      exists (rs1 ++ rs2)%list. rewrite Hs2, Hs1, <- app_assoc.
      split; [reflexivity|]. split.
      * rewrite length_app. cbn [List.length].
        destruct Hrs1 as [-> | (r & -> & _)]; cbn; lia.
      * apply Forall_app. split; [|exact Hall].
        destruct Hrs1 as [-> | (r & -> & Hr1)]; [constructor|].
        constructor; [exact Hr1 | constructor].
    + cbn. split; [left; reflexivity|]. split; [reflexivity|].
      exists rs1. split; [exact Hs1|]. split.
      * destruct Hrs1 as [-> | (r & -> & _)]; cbn; lia.
      * destruct Hrs1 as [-> | (r & -> & Hr1)]; [constructor|].
        constructor; [exact Hr1 | constructor].
Qed.

(** X12. The loop reads nothing after the line (or the Ctrl-C) that ends
    the session: whatever would follow on the keyboard, the run is the same,
    and it returns. *)
Theorem the_loop_stops_reading_at_the_end_of_session
  (net : service) (before after : list Agent.keyboard) (k : Agent.keyboard)
  (s : Agent.SMLGOAPIAgent) (w : world) :
  ends_session k = true ->
  Agent.interactive_loop net (before ++ k :: after) s w
  = Agent.interactive_loop net (before ++ [k]) s w
  /\ result_of (Agent.interactive_loop net (before ++ k :: after) s w) = Ret tt.
Proof.
  intros Hk. revert w.
  induction before as [|b rest IH]; intros w; cbn [app Agent.interactive_loop].
  - rewrite !(run_bind_ret _ _ _ _ _ (turn_breaks_at_session_end net k s w Hk)).
    split; reflexivity.
  - destruct (turn_returns net b s w) as [f Hf].
    rewrite !(run_bind_ret _ _ _ _ _ Hf), (turn_keeps net b s w).
    destruct f; [apply IH | split; reflexivity].
Qed.

Lemma the_loop_stops_reading_at_the_end_of_session_witness :
  Agent.interactive_loop Fixtures.down
    ([Agent.Typed "health"] ++ Agent.Typed "quit" :: [Agent.Typed "tables"])
    (Agent.init Agent.default_url) fresh
  = Agent.interactive_loop Fixtures.down
      ([Agent.Typed "health"] ++ [Agent.Typed "quit"])
      (Agent.init Agent.default_url) fresh
  /\ result_of (Agent.interactive_loop Fixtures.down
                  ([Agent.Typed "health"] ++ Agent.Typed "quit"
                   :: [Agent.Typed "tables"])
                  (Agent.init Agent.default_url) fresh) = Ret tt.
Proof.
  apply (the_loop_stops_reading_at_the_end_of_session Fixtures.down
           [Agent.Typed "health"] [Agent.Typed "tables"] (Agent.Typed "quit")
           (Agent.init Agent.default_url) fresh).
  reflexivity.
Defined.

Section LoopArguments.
Import Agent.
Variable net : service.





End LoopArguments.



(** ** Following a script call by call *)

(** A part that returns, keeps the object and makes one call hands over to
    the rest with that call in the log. *)
Lemma step_call {S A B} (m : M S A) (k : A -> M S B) (r : request) s w :
  returns m -> keeps_self m ->
  sent (world_of (m s w)) = (sent w ++ [r])%list ->
  exists a w', sent w' = (sent w ++ [r])%list /\ bind m k s w = k a s w'.
Proof.
  intros Hr Hk Hs. destruct (Hr s w) as [a Ha]. specialize (Hk s w).
  exists a, (world_of (m s w)). split; [exact Hs|].
  rewrite (run_bind_ret _ _ _ _ _ Ha), Hk. reflexivity.
Qed.

(** A part that makes no call and keeps the object either hands over to the
    rest with the log as it was, or ends the script there. *)
Lemma step_quiet {S A B} (m : M S A) (k : A -> M S B) s w :
  silent m -> keeps_self m ->
  (exists a w', sent w' = sent w /\ bind m k s w = k a s w')
  \/ sent (world_of (bind m k s w)) = sent w.
Proof.
  intros Hs Hk. specialize (Hs s w). specialize (Hk s w).
  unfold bind. destruct (m s w) as [[o s'] w']. cbn in Hs, Hk. subst s'.
  destruct o as [a|e|].
  - left. exists a, w'. split; [exact Hs | reflexivity].
  - right. exact Hs.
  - right. exact Hs.
Qed.

Lemma extends_here (w0 w : world) (P : list request -> Prop) rs :
  sent w = (sent w0 ++ rs)%list -> P rs -> extends w0 P (sent w).
Proof. intros H HP. exists rs. split; assumption. Qed.

Lemma log_grows (w0 w w' : world) rs r :
  sent w = (sent w0 ++ rs)%list -> sent w' = (sent w ++ [r])%list ->
  sent w' = (sent w0 ++ (rs ++ [r]))%list.
Proof. intros -> ->. symmetry. apply app_assoc. Qed.

Lemma log_stays (w0 w w' : world) rs :
  sent w = (sent w0 ++ rs)%list -> sent w' = sent w ->
  sent w' = (sent w0 ++ rs)%list.
Proof. intros -> ->. reflexivity. Qed.

(** A transport call either hands its response over to the rest, or ends
    the script there; the request is in the log either way. *)
Lemma step_send {S A} (net : service) (r : request)
      (k : response -> M S A) s w :
  (exists resp w', sent w' = (sent w ++ [r])%list
                   /\ bind (send net r) k s w = k resp s w')
  \/ sent (world_of (bind (send net r) k s w)) = (sent w ++ [r])%list.
Proof.
  rewrite run_send. destruct (net (sent w) r) as [msg|resp].
  - right. reflexivity.
  - left. eexists _, _. split; [|reflexivity]. reflexivity.
Qed.

Lemma fetch_keeps net lvl : keeps_self (fetch net lvl).
Proof. intros s w. destruct (fetch_returns net lvl s w) as (v & _ & H). exact H. Qed.

Lemma fetch_always_returns net lvl : returns (fetch net lvl).
Proof. intros s w. destruct (fetch_returns net lvl s w) as (v & H & _). exists v. exact H. Qed.

#[export] Hint Resolve fetch_keeps : keeps.
#[export] Hint Resolve fetch_always_returns : ordinary.

Lemma bind_assoc {S A B C} (m : M S A) (f : A -> M S B) (k : B -> M S C) s w :
  bind (bind m f) k s w = bind m (fun a => bind (f a) k) s w.
Proof.
  unfold bind. destruct (m s w) as [[o s'] w']. destruct o; reflexivity.
Qed.

Ltac calls_lemma :=
  first [ apply check_health_calls | apply get_database_tables_calls
        | apply execute_select_calls | apply execute_command_calls
        | apply search_products_calls | apply fetch_calls ].

(** One step along a script: past a part that makes no call, past a method
    that makes one, past a transport call, into a branch, or to the end.
    [close] proves what is claimed of the requests made so far. *)
Ltac advance close :=
  cbv beta;
  lazymatch goal with
  | Hcur : sent ?w = (sent ?w0 ++ ?rs)%list
    |- extends ?w0 _ (sent (world_of (bind (send ?net ?r) ?k ?s ?w))) =>
      let resp := fresh "resp" in
      let w' := fresh "w" in
      let Hw := fresh "Hw" in
      let E := fresh "E" in
      destruct (step_send net r k s w) as [(resp & w' & Hw & E) | E];
      [ rewrite E; clear E;
        apply (log_grows w0 w w' rs _ Hcur) in Hw; clear Hcur;
        cbn [app] in Hw
      | rewrite E; clear E;
        exists (rs ++ [r])%list; split;
        [ rewrite Hcur; symmetry; apply app_assoc | cbn [app]; close ] ]
  | Hcur : sent ?w = (sent ?w0 ++ ?rs)%list
    |- extends ?w0 _ (sent (world_of (bind ?m ?k ?s ?w))) =>
      first
        [ let a := fresh "a" in
          let w' := fresh "w" in
          let Hw := fresh "Hw" in
          let E := fresh "E" in
          destruct (step_quiet m k s w ltac:(auto 60 with silent)
                      ltac:(auto 60 with keeps))
            as [(a & w' & Hw & E) | E];
          [ rewrite E; clear E;
            apply (log_stays w0 w w' rs Hcur) in Hw; clear Hcur
          | rewrite E; clear E;
            apply (extends_here w0 w _ rs Hcur); close ]
        | let a := fresh "a" in
          let w' := fresh "w" in
          let Hw := fresh "Hw" in
          let E := fresh "E" in
          edestruct (step_call m k _ s w ltac:(auto 60 with ordinary)
                       ltac:(auto 60 with keeps) ltac:(calls_lemma))
            as (a & w' & Hw & E);
          rewrite E; clear E;
          apply (log_grows w0 w w' rs _ Hcur) in Hw; clear Hcur;
          cbn [app] in Hw
        | lazymatch m with
          | (if ?b then _ else _) => destruct b
          | bind _ _ => rewrite bind_assoc
          end ]
  | Hcur : sent ?w = (sent ?w0 ++ ?rs)%list
    |- extends ?w0 _ (sent (world_of ((if ?b then _ else _) ?s ?w))) =>
      destruct b
  | Hcur : sent ?w = (sent ?w0 ++ ?rs)%list
    |- extends ?w0 _ (sent (world_of (?m ?s ?w))) =>
      let H := fresh "H" in
      assert (H : silent m) by auto 60 with silent;
      rewrite (H s w); clear H;
      apply (extends_here w0 w _ rs Hcur); close
  end.

Ltac from_here w :=
  let Hcur := fresh "Hcur" in
  assert (Hcur : sent w = (sent w ++ [])%list) by (symmetry; apply app_nil_r).

(** ** The demonstration of the agent *)

Lemma demonstration_requests_same s s' :
  Agent.base_url s' = Agent.base_url s ->
  demonstration_requests s' = demonstration_requests s.
Proof.
  intros H. unfold demonstration_requests, AgentRequests.guide,
    AgentRequests.health, AgentRequests.tables, AgentRequests.select,
    AgentRequests.command, AgentRequests.search.
  rewrite H. reflexivity.
Qed.

Lemma demonstrate_steps_requests net s w :
  extends w (fun rs => rs = firstn (List.length rs) (tl (demonstration_requests s)))
          (sent (world_of (Agent.demonstrate_steps net s w))).
Proof.
  from_here w.
  unfold Agent.demonstrate_steps, Agent.print_practice, Agent.print_table,
    Agent.print_product.
  repeat (advance ltac:(reflexivity)).
Qed.

(** X14. The demonstration makes its calls in the order of its steps and
    makes each at most once: for every service, the requests it sends are a
    non-empty initial part of: the guide, the health check, the tables, the
    test query, [SHOW TABLES], the search for ["test"] with limit 3. *)
Theorem the_demonstration_calls_in_order
  (net : service) (s : Agent.SMLGOAPIAgent) (w : world) :
  exists rs,
    sent (world_of (Agent.demonstrate_capabilities net s w)) = (sent w ++ rs)%list
    /\ rs = firstn (List.length rs) (demonstration_requests s)
    /\ 1 <= List.length rs.
Proof.
  unfold Agent.demonstrate_capabilities. rewrite !run_print.
  match goal with
  | |- context [bind _ _ s ?w'] => set (w1 := w')
  end.
  change (sent w) with (sent w1). clearbody w1.
  destruct (discover_api_returns net s w1) as [b Hb].
  rewrite (run_bind_ret _ _ _ _ _ Hb).
  assert (Hc := discover_api_calls net s w1).
  assert (Hu : Agent.base_url (self_of (Agent.discover_api net s w1))
               = Agent.base_url s).
  { rewrite discover_api_self. apply discovered_self_base_url. }
  destruct b; cbn [negb].
  - destruct (demonstrate_steps_requests net
                (self_of (Agent.discover_api net s w1))
                (world_of (Agent.discover_api net s w1))) as (rs & Hs & Hrs).
    rewrite (demonstration_requests_same _ _ Hu) in Hrs.
    exists (AgentRequests.guide s :: rs). rewrite Hs, Hc, <- app_assoc.
    split; [reflexivity|]. split; [|cbn; lia].
    cbn [List.length firstn demonstration_requests].
    cbn [tl demonstration_requests] in Hrs. rewrite <- Hrs. reflexivity.
  - exists [AgentRequests.guide s]. cbn. split; [exact Hc|].
    split; [reflexivity | lia].
Qed.

(** ** [main] of the agent script *)

Lemma result_with_object {S T A} (obj : T) (m : M T A) (s : S) w :
  result_of (with_object obj m s w) = result_of (m obj w).
Proof. unfold with_object. destruct (m obj w) as [[o t] w']. reflexivity. Qed.

Lemma world_with_object {S T A} (obj : T) (m : M T A) (s : S) w :
  world_of (with_object obj m s w) = world_of (m obj w).
Proof. unfold with_object. destruct (m obj w) as [[o t] w']. reflexivity. Qed.

(** Both drivers after a discovery that returned [False]. *)
Lemma drivers_after_failed_discovery net s w keys :
  result_of (Agent.discover_api net s w) = Ret false ->
  (result_of (Agent.demonstrate_capabilities net s w) = Ret tt
   /\ sent (world_of (Agent.demonstrate_capabilities net s w))
      = (sent w ++ [AgentRequests.guide s])%list)
  /\ (result_of (Agent.interactive_mode net keys s w) = Ret tt
      /\ sent (world_of (Agent.interactive_mode net keys s w))
         = (sent w ++ [AgentRequests.guide s])%list).
Proof.
  intros Hfail.
  unfold Agent.demonstrate_capabilities, Agent.interactive_mode.
  rewrite !run_print.
  repeat split;
    match goal with
    | |- context [bind _ _ s ?w'] =>
        let H := fresh "H" in
        let C := fresh "C" in
        assert (H : result_of (Agent.discover_api net s w') = Ret false)
          by (rewrite <- Hfail; apply (discover_api_result_printed net s w));
        assert (C := discover_api_calls net s w');
        cbn [sent] in C;
        rewrite (run_bind_ret _ _ _ _ _ H); cbn [negb];
        first [ reflexivity | exact C ]
    end.
Qed.

(** X15. [main] always works on an agent of its own for
    [http://localhost:8008]: in either mode, whatever the arguments and the
    keyboard, when the GET of [http://localhost:8008/guide] fails in the
    transport, that request is the only one [main] makes, and [main]
    returns normally. *)
Theorem main_stops_after_a_failed_discovery
  (net : service) (argv : list string) (keys : list Agent.keyboard)
  (S : Type) (s : S) (w : world) :
  let guide := Request GET "http://localhost:8008/guide" [] None in
  transport_failure (url guide) (net (sent w) guide) ->
  result_of (AgentScript.main net argv keys s w) = Ret tt
  /\ sent (world_of (AgentScript.main net argv keys s w)) = (sent w ++ [guide])%list
  /\ self_of (AgentScript.main net argv keys s w) = s.
Proof.
  intros guide H. unfold AgentScript.main.
  rewrite result_with_object, world_with_object.
  assert (Hd : result_of (Agent.discover_api net
                            (Agent.init Agent.default_url) w) = Ret false)
    by (apply discover_api_fails_on_transport_failure; exact H).
  destruct (drivers_after_failed_discovery net _ w keys Hd)
    as [[Hr1 Hs1] [Hr2 Hs2]].
  split; [|split; [|apply keeps_with_object]];
    destruct (andb _ _); assumption.
Qed.

Lemma main_stops_after_a_failed_discovery_witness :
  result_of (AgentScript.main Fixtures.down ["ai_agent_example.py"; "--interactive"]
               [Agent.Typed "health"] tt fresh) = Ret tt
  /\ sent (world_of (AgentScript.main Fixtures.down
                       ["ai_agent_example.py"; "--interactive"]
                       [Agent.Typed "health"] tt fresh))
     = ([] ++ [Request GET "http://localhost:8008/guide" [] None])%list
  /\ self_of (AgentScript.main Fixtures.down
                ["ai_agent_example.py"; "--interactive"]
                [Agent.Typed "health"] tt fresh) = tt.
Proof.
  apply (main_stops_after_a_failed_discovery Fixtures.down
           ["ai_agent_example.py"; "--interactive"] [Agent.Typed "health"]
           unit tt fresh).
  exact I.
Defined.

(** ** The demonstrations of the three-level client *)

Section ThaiDemoFacts.
Import ThaiDemo.
Variable net : service.

Lemma silent_matching term ps : silent (matching term ps).
Proof. induction ps as [|p rest IH]; cbn [matching]; auto 20 with silent. Qed.

Lemma keeps_matching term ps : keeps_self (matching term ps).
Proof. induction ps as [|p rest IH]; cbn [matching]; auto 20 with keeps. Qed.

Lemma ordinary_matching term ps : ordinary (matching term ps).
Proof. induction ps as [|p rest IH]; cbn [matching]; auto 20 with ordinary. Qed.

Lemma hierarchical_lookup_requests api w :
  extends w
    (fun rs => In rs (lookup_sequences api))
    (sent (world_of (hierarchical_lookup net api w))).
Proof.
  unfold hierarchical_lookup, print_province, print_district.
  rewrite !run_print.
  match goal with
  | |- context [bind _ _ api ?w'] =>
      assert (Hcur : sent w' = (sent w ++ [])%list)
        by (symmetry; apply app_nil_r);
      generalize dependent w'; intros w1 Hcur
  end.
  change (ThaiAdmin.get_provinces net) with (fetch net Provinces).
  change (ThaiAdmin.get_amphures net 1) with (fetch net (Amphures 1)).
  change (ThaiAdmin.get_amphures net 38) with (fetch net (Amphures 38)).
  change (ThaiAdmin.get_tambons net 1001 1) with (fetch net (Tambons 1001 1)).
  repeat (advance ltac:(cbn [In lookup_sequences]; auto 10)).
Qed.

End ThaiDemoFacts.

(** X16. [demo_hierarchical_lookup] walks the hierarchy top-down and
    never repeats a call: for every service its requests are exactly one of
    five sequences: the provinces alone; then Bangkok's amphures
    ([province_id] 1); then, only after those, the tambons of amphure 1001
    in province 1, both identifiers together; and last, with or without the
    tambons, Chiang Mai's amphures ([province_id] 38). *)
Theorem the_lookup_demo_walks_top_down
  (net : service) (S : Type) (s : S) (w : world) :
  exists rs,
    sent (world_of (ThaiDemo.demo_hierarchical_lookup net s w))
    = (sent w ++ rs)%list
    /\ In rs (lookup_sequences demo_api).
Proof.
  unfold ThaiDemo.demo_hierarchical_lookup. rewrite world_with_object.
  apply hierarchical_lookup_requests.
Qed.

Section ThaiDemoStops.
Import ThaiDemo.
Variable net : service.

Lemma hierarchical_lookup_without_provinces api w :
  transport_failure (url (provinces_request api))
                    (net (sent w) (provinces_request api))
  \/ service_failure (url (provinces_request api))
                     (net (sent w) (provinces_request api)) ->
  result_of (hierarchical_lookup net api w) = Ret tt
  /\ sent (world_of (hierarchical_lookup net api w))
     = (sent w ++ [provinces_request api])%list.
Proof.
  intros H. unfold hierarchical_lookup. rewrite !run_print.
  change (ThaiAdmin.get_provinces net) with (fetch net Provinces).
  match goal with
  | |- context [bind _ _ api ?w'] =>
      assert (Hr := fetch_on_failure net Provinces api w' H);
      assert (Hc := fetch_calls net Provinces api w');
      assert (Hk := fetch_keeps net Provinces api w')
  end.
  rewrite !(run_bind_ret _ _ _ _ _ Hr). cbn [truthy negb].
  split; [reflexivity | exact Hc].
Qed.

Lemma search_by_name_requests api w :
  sent (world_of (search_by_name net api w))
  = (sent w ++ [provinces_request api])%list.
Proof.
  unfold search_by_name. rewrite !run_print.
  change (ThaiAdmin.get_provinces net) with (fetch net Provinces).
  rewrite bind_silent_tail.
  - rewrite (fetch_calls net Provinces). reflexivity.
  - intros provinces. unfold search_one, print_province.
    apply silent_if; [auto with silent|].
    apply silent_for_each. intros term.
    auto 30 using silent_matching with silent.
Qed.

End ThaiDemoStops.

(** X17. Without provinces there is no lookup: when the fetch of the
    provinces fails, in the transport or by the service's own report,
    [demo_hierarchical_lookup] makes no further call (no amphures, no
    tambons are asked for) and returns normally. *)
Theorem the_lookup_demo_stops_without_provinces
  (net : service) (S : Type) (s : S) (w : world) :
  let rq := Request POST "http://localhost:8008/get/provinces"
                    [("Content-Type", "application/json")] (Some (VDict [])) in
  transport_failure (url rq) (net (sent w) rq)
  \/ service_failure (url rq) (net (sent w) rq) ->
  result_of (ThaiDemo.demo_hierarchical_lookup net s w) = Ret tt
  /\ sent (world_of (ThaiDemo.demo_hierarchical_lookup net s w))
     = (sent w ++ [rq])%list.
Proof.
  intros rq H. unfold ThaiDemo.demo_hierarchical_lookup.
  rewrite result_with_object, world_with_object.
  apply (hierarchical_lookup_without_provinces net demo_api w H).
Qed.

Lemma the_lookup_demo_stops_without_provinces_witness :
  result_of (ThaiDemo.demo_hierarchical_lookup
               (Fixtures.answering
                  (VDict [("success", VBool false);
                          ("error", VStr "database unavailable")]))
               tt fresh) = Ret tt
  /\ sent (world_of (ThaiDemo.demo_hierarchical_lookup
                       (Fixtures.answering
                          (VDict [("success", VBool false);
                                  ("error", VStr "database unavailable")]))
                       tt fresh))
     = ([] ++ [Request POST "http://localhost:8008/get/provinces"
                       [("Content-Type", "application/json")]
                       (Some (VDict []))])%list.
Proof.
  apply (the_lookup_demo_stops_without_provinces
           (Fixtures.answering
              (VDict [("success", VBool false);
                      ("error", VStr "database unavailable")]))
           unit tt fresh).
  right. eexists _, _. repeat split; reflexivity.
Defined.

(** X18. The search by name is local: whatever the service answers,
    [demo_search_by_name] makes exactly one call, the fetch of all the
    provinces; the four search terms are matched against that one list and
    cause no request. *)
Theorem the_search_demo_fetches_once
  (net : service) (S : Type) (s : S) (w : world) :
  sent (world_of (ThaiDemo.demo_search_by_name net s w))
  = (sent w ++
     [Request POST "http://localhost:8008/get/provinces"
              [("Content-Type", "application/json")] (Some (VDict []))])%list
  /\ self_of (ThaiDemo.demo_search_by_name net s w) = s.
Proof.
  unfold ThaiDemo.demo_search_by_name. split.
  - rewrite world_with_object. apply search_by_name_requests.
  - apply keeps_with_object.
Qed.

(** ** [main] of the three-level demonstration *)

Section ThaiMain.
Import ThaiDemo.
Variable net : service.
Context {S : Type}.

Lemma server_available_run (s : S) w :
  result_of (server_available net s w)
  = Ret (answers_200 (net (sent w) health_probe))
  /\ self_of (server_available net s w) = s
  /\ sent (world_of (server_available net s w)) = (sent w ++ [health_probe])%list.
Proof.
  unfold server_available, answers_200. unfold_run. cbn.
  destruct (net (sent w) health_probe) as [msg|r]; cbn.
  - repeat split; reflexivity.
  - destruct (status_code r =? 200)%Z; cbn; repeat split; reflexivity.
Qed.

(** Either the first part returns and the rest runs from where it ended, or
    the script ends with the first part. *)
Lemma step_any {A B} (m : M S A) (k : A -> M S B) s w :
  (exists a, bind m k s w = k a (self_of (m s w)) (world_of (m s w)))
  \/ world_of (bind m k s w) = world_of (m s w).
Proof.
  unfold bind, self_of, world_of. destruct (m s w) as [[o s'] w'].
  destruct o; cbn; [left; eexists; reflexivity | right; reflexivity ..].
Qed.

End ThaiMain.

(** X19. [main] of the three-level demonstration tests the connection
    first and runs no demonstration unless the answer has status 200: when
    the GET of [/health] raises or is answered with any other status (a 204
    and a 301 as much as a 500), that GET is the only request, and [main]
    returns normally. *)
Theorem thai_main_needs_a_200
  (net : service) (S : Type) (s : S) (w : world) :
  answers_200 (net (sent w) (Request GET "http://localhost:8008/health" [] None))
  = false ->
  result_of (ThaiDemo.main net s w) = Ret tt
  /\ sent (world_of (ThaiDemo.main net s w))
     = (sent w ++ [Request GET "http://localhost:8008/health" [] None])%list
  /\ self_of (ThaiDemo.main net s w) = s.
Proof.
  intros H. destruct (server_available_run net s w) as (Hr & Hk & Hs).
  change (Request GET "http://localhost:8008/health" [] None)
    with ThaiDemo.health_probe in *.
  rewrite H in Hr. unfold ThaiDemo.main.
  rewrite (run_bind_ret _ _ _ _ _ Hr), Hk. cbn [negb].
  repeat split. exact Hs.
Qed.

Lemma thai_main_needs_a_200_witness :
  result_of (ThaiDemo.main (Fixtures.erring 204 "No Content") tt fresh) = Ret tt
  /\ sent (world_of (ThaiDemo.main (Fixtures.erring 204 "No Content") tt fresh))
     = ([] ++ [Request GET "http://localhost:8008/health" [] None])%list
  /\ self_of (ThaiDemo.main (Fixtures.erring 204 "No Content") tt fresh) = tt.
Proof.
  apply (thai_main_needs_a_200 (Fixtures.erring 204 "No Content") unit tt fresh).
  reflexivity.
Defined.

(** X20. With status 200 on the connectivity test, whatever the body (it
    is never decoded), [main] goes on to the demonstrations: its requests
    are the health test, then one of the five sequences of the lookup, then
    at most one more fetch of the provinces (that of the search). *)
Theorem thai_main_runs_the_demos_after_a_200
  (net : service) (S : Type) (s : S) (w : world) :
  answers_200 (net (sent w) (Request GET "http://localhost:8008/health" [] None))
  = true ->
  exists lookup search,
    sent (world_of (ThaiDemo.main net s w))
    = (sent w ++ Request GET "http://localhost:8008/health" [] None
               :: lookup ++ search)%list
    /\ In lookup (lookup_sequences demo_api)
    /\ (search = [] \/ search = [provinces_request demo_api]).
Proof.
  intros H. destruct (server_available_run net s w) as (Hr & Hk & Hs).
  change (Request GET "http://localhost:8008/health" [] None)
    with ThaiDemo.health_probe in *.
  rewrite H in Hr. unfold ThaiDemo.main.
  rewrite (run_bind_ret _ _ _ _ _ Hr), Hk. cbn [negb].
  set (w1 := world_of (ThaiDemo.server_available net s w)) in *.
  destruct (hierarchical_lookup_requests net demo_api w1) as (rs & Hl & Hin).
  assert (Hl' : sent (world_of (ThaiDemo.demo_hierarchical_lookup net s w1))
                = (sent w1 ++ rs)%list)
    by (unfold ThaiDemo.demo_hierarchical_lookup;
        rewrite world_with_object; exact Hl).
  assert (Hself : self_of (ThaiDemo.demo_hierarchical_lookup net s w1) = s)
    by apply keeps_with_object.
  clear Hl. rename Hl' into Hl.
  exists rs.
  destruct (step_any (ThaiDemo.demo_hierarchical_lookup net)
              (fun _ => ThaiDemo.demo_search_by_name net ;;;
                        print "==================================================" [] ;;;
                        print "Demo completed successfully!" [] ;;;
                        print "Integration Tips:" [] ;;;
                        print "   - Use province_id from /get/provinces to get amphures" [] ;;;
                        print "   - Use amphure_id + province_id to get tambons" [] ;;;
                        print "   - Cache the data locally for better performance" [] ;;;
                        print "   - All endpoints return Thai and English names" [] ;;;
                        print "   - Perfect for address forms and location selectors" [])%run
              s w1) as [[a E] | E].
  - exists [provinces_request demo_api]. rewrite E.
    rewrite bind_silent_tail by (intros; auto 20 with silent).
    unfold ThaiDemo.demo_search_by_name. rewrite world_with_object.
    rewrite search_by_name_requests.
    rewrite Hl, Hs, <- !app_assoc. cbn [app].
    split; [reflexivity|]. split; [exact Hin | right; reflexivity].
  - exists []. rewrite E, Hl, Hs, <- !app_assoc, app_nil_r. cbn [app].
    split; [reflexivity|]. split; [exact Hin | left; reflexivity].
Qed.

Lemma thai_main_runs_the_demos_after_a_200_witness :
  exists lookup search,
    sent (world_of (ThaiDemo.main Fixtures.garbled tt fresh))
    = ([] ++ Request GET "http://localhost:8008/health" [] None
             :: lookup ++ search)%list
    /\ In lookup (lookup_sequences demo_api)
    /\ (search = [] \/ search = [provinces_request demo_api]).
Proof.
  apply (thai_main_runs_the_demos_after_a_200 Fixtures.garbled unit tt fresh).
  reflexivity.
Defined.

(** ** The simple test *)

Section SimpleTestFacts.
Import SimpleTest.
Variable net : service.
Context {S : Type}.

Lemma steps_ordinary : ordinary (S:=S) (steps net).
Proof. unfold steps. auto 80 with ordinary. Qed.

Lemma test_api_guide_returns : returns (S:=S) (test_api_guide net).
Proof.
  unfold test_api_guide.
  apply returns_bind; [apply returns_print | intros _].
  apply returns_bind; [apply returns_print | intros _].
  apply returns_try_except; [apply steps_ordinary | intros e; apply returns_print].
Qed.

Lemma test_api_guide_keeps : keeps_self (S:=S) (test_api_guide net).
Proof. unfold test_api_guide, steps. auto 80 with keeps. Qed.

Lemma test_api_guide_requests (s : S) w :
  extends w (starts simple_test_requests)
          (sent (world_of (test_api_guide net s w))).
Proof.
  unfold test_api_guide. rewrite !run_print.
  rewrite try_sent
    by (intros e h H; apply (silent_except _ e h (fun e' => silent_print _ _) H)).
  unfold steps. rewrite run_print.
  match goal with
  | |- context [bind _ _ s ?w'] =>
      assert (Hcur : sent w' = (sent w ++ [])%list)
        by (symmetry; apply app_nil_r);
      generalize dependent w'; intros w1 Hcur
  end.
  repeat (advance ltac:(unfold starts, simple_test_requests;
                        cbn [List.length firstn]; split; [reflexivity | lia])).
Qed.

End SimpleTestFacts.

(** X21. [test_api_guide] never raises, whatever the service does: every
    failure ends up in its one handler.  Its calls are a non-empty initial
    part of: guide, health, select, command; so at most four, in that
    order, each at most once. *)
Theorem the_simple_test_never_raises_and_calls_in_order
  (net : service) (S : Type) (s : S) (w : world) :
  result_of (SimpleTest.test_api_guide net s w) = Ret tt
  /\ self_of (SimpleTest.test_api_guide net s w) = s
  /\ exists rs,
       sent (world_of (SimpleTest.test_api_guide net s w)) = (sent w ++ rs)%list
       /\ rs = firstn (List.length rs) simple_test_requests
       /\ 1 <= List.length rs.
Proof.
  split; [|split].
  - destruct (test_api_guide_returns net s w) as [[] H]. exact H.
  - apply test_api_guide_keeps.
  - apply test_api_guide_requests.
Qed.

(** X22. [test_api_guide] checks no status code: when every answer carries
    a JSON mapping (the guide's ["endpoints"] a mapping or missing), all
    four calls are made and the test ends with its line of success,
    whatever the status codes are and whether or not the mappings report
    success. *)
Theorem the_simple_test_ignores_status_codes
  (net : service) (S : Type) (s : S) (w : world) :
  (forall before rq,
      exists r kvs,
        net before rq = Answered r
        /\ content r = Json (VDict kvs)
        /\ isinstance_dict (endpoints_field kvs) = true) ->
  result_of (SimpleTest.test_api_guide net s w) = Ret tt
  /\ sent (world_of (SimpleTest.test_api_guide net s w))
     = (sent w ++ simple_test_requests)%list
  /\ last (printed (world_of (SimpleTest.test_api_guide net s w))) (Line "" [])
     = Line "AI Agent test completed successfully!" [].
Proof.
  intros H.
  unfold SimpleTest.test_api_guide, SimpleTest.steps, decode, endpoints_field in *.
  unfold_run. cbn.
  repeat first
    [ match goal with
      | |- context [net ?h ?rq] =>
          let r := fresh "r" in
          let kvs := fresh "kvs" in
          let E := fresh "E" in
          let C := fresh "C" in
          let He := fresh "He" in
          destruct (H h rq) as (r & kvs & E & C & He);
          rewrite E; cbn; rewrite C; cbn
      end
    | match goal with
      | He : isinstance_dict (match lookup "endpoints" ?kvs with _ => _ end) = true
        |- context [keys (match lookup "endpoints" ?kvs with _ => _ end)] =>
          destruct (match lookup "endpoints" kvs with
                    | Some e => e
                    | None => VDict []
                    end);
          try discriminate He; cbn
      end
    | match goal with
      | |- context [if truthy ?v then _ else _] => destruct (truthy v); cbn
      end ];
  rewrite ?last_last, <- ?app_assoc; repeat split; reflexivity.
Qed.

Lemma the_simple_test_ignores_status_codes_witness :
  result_of (SimpleTest.test_api_guide
               (fun _ _ => Answered (Response 500 "Internal Server Error"
                                       (Json (VDict [("error", VStr "down")]))))
               tt fresh) = Ret tt
  /\ sent (world_of (SimpleTest.test_api_guide
                       (fun _ _ => Answered (Response 500 "Internal Server Error"
                                               (Json (VDict [("error", VStr "down")]))))
                       tt fresh))
     = ([] ++ simple_test_requests)%list
  /\ last (printed (world_of (SimpleTest.test_api_guide
                                (fun _ _ => Answered (Response 500 "Internal Server Error"
                                                        (Json (VDict [("error", VStr "down")]))))
                                tt fresh)))
          (Line "" [])
     = Line "AI Agent test completed successfully!" [].
Proof.
  apply (the_simple_test_ignores_status_codes
           (fun _ _ => Answered (Response 500 "Internal Server Error"
                                   (Json (VDict [("error", VStr "down")]))))
           unit tt fresh).
  intros before rq. eexists _, _. repeat split; reflexivity.
Defined.

(** ** Unprotected steps *)

(** X23. The demonstration has no handler of its own around its steps: when
    the guide's ["ai_agent_instructions"] is present but is no mapping, the
    [.get] on it raises [AttributeError] out of [demonstrate_capabilities],
    after the guide and the health check and before any other call. *)
Theorem the_demonstration_raises_on_malformed_instructions
  (net : service) (s : Agent.SMLGOAPIAgent) (w : world)
  (kvs : list (string * value)) (v : value) :
  answered_with net w (AgentRequests.guide s) kvs ->
  isinstance_dict (endpoints_field kvs) = true ->
  lookup "ai_agent_instructions" kvs = Some v ->
  isinstance_dict v = false ->
  result_of (Agent.demonstrate_capabilities net s w)
  = Raise (Exn AttributeError
               ("'" ++ type_name v ++ "' object has no attribute 'get'"))
  /\ sent (world_of (Agent.demonstrate_capabilities net s w))
     = (sent w ++ [AgentRequests.guide s; AgentRequests.health s])%list.
Proof.
  intros Hans Hend Hins Hv.
  unfold Agent.demonstrate_capabilities. rewrite !run_print.
  match goal with
  | |- context [bind _ _ s ?w'] => set (w1 := w')
  end.
  assert (Hans1 : answered_with net w1 (AgentRequests.guide s) kvs) by exact Hans.
  destruct Hans1 as (r & Hrp & Hstatus & Hbody). cbn [url AgentRequests.guide] in Hstatus.
  assert (Hres := discover_api_result net s w1).
  assert (Hself := discover_api_self net s w1).
  assert (Hcalls := discover_api_calls net s w1).
  rewrite Hrp in Hres, Hself.
  unfold discovers in Hres. unfold discovered_self in Hself.
  rewrite Hstatus, Hbody in Hres, Hself. cbn in Hres, Hself.
  unfold endpoints_field in Hend.
  destruct (match lookup "endpoints" kvs with Some e => e | None => VDict [] end)
    as [| | | | | |eps] eqn:Heps; try discriminate Hend.
  cbn in Hres, Hself.
  rewrite (run_bind_ret _ _ _ _ _ Hres). cbn [negb]. rewrite Hself.
  set (s1 := Agent.set_endpoints (VDict eps) (Agent.set_guide_data (VDict kvs) s)) in *.
  set (w2 := world_of (Agent.discover_api net s w1)) in *.
  unfold Agent.demonstrate_steps. rewrite run_print.
  match goal with
  | |- context [bind (Agent.check_health net) ?k s1 ?w'] =>
      destruct (step_call (Agent.check_health net) k (AgentRequests.health s1) s1 w'
                  (check_health_returns net) (check_health_keeps net)
                  (check_health_calls net s1 w'))
        as (healthy & w3 & Hw3 & E)
  end.
  rewrite E. clear E. cbn [sent] in Hw3.
  unfold_run. cbn [Agent.guide_data s1 Agent.set_endpoints Agent.set_guide_data].
  destruct healthy; cbn; rewrite Hins; destruct v; try discriminate Hv; cbn;
    (split; [reflexivity|]);
    rewrite Hw3; fold w2; rewrite Hcalls; rewrite <- app_assoc; reflexivity.
Qed.

Lemma the_demonstration_raises_on_malformed_instructions_witness :
  result_of (Agent.demonstrate_capabilities
               (Fixtures.answering
                  (VDict [("api_name", VStr "SMLGOAPI");
                          ("ai_agent_instructions", VStr "be kind")]))
               (Agent.init Agent.default_url) fresh)
  = Raise (Exn AttributeError
               ("'" ++ type_name (VStr "be kind")
                ++ "' object has no attribute 'get'"))
  /\ sent (world_of (Agent.demonstrate_capabilities
                       (Fixtures.answering
                          (VDict [("api_name", VStr "SMLGOAPI");
                                  ("ai_agent_instructions", VStr "be kind")]))
                       (Agent.init Agent.default_url) fresh))
     = ([] ++ [AgentRequests.guide (Agent.init Agent.default_url);
               AgentRequests.health (Agent.init Agent.default_url)])%list.
Proof.
  apply (the_demonstration_raises_on_malformed_instructions
           (Fixtures.answering
              (VDict [("api_name", VStr "SMLGOAPI");
                      ("ai_agent_instructions", VStr "be kind")]))
           (Agent.init Agent.default_url) fresh
           [("api_name", VStr "SMLGOAPI");
            ("ai_agent_instructions", VStr "be kind")]
           (VStr "be kind")); try reflexivity.
  eexists. repeat split; reflexivity.
Defined.

(** X24. The lookup demonstration trusts the shape of the records: when the
    provinces arrive and the first record is a mapping without ["id"], the
    first line of the list raises [KeyError] out of
    [demo_hierarchical_lookup], after the one call for the provinces. *)
Theorem the_lookup_demo_raises_on_a_record_without_id
  (net : service) (S : Type) (s : S) (w : world)
  (kvs record : list (string * value)) (others : list value) :
  service_success (url (provinces_request demo_api))
                  (net (sent w) (provinces_request demo_api)) kvs ->
  lookup "data" kvs = Some (VList (VDict record :: others)) ->
  lookup "id" record = None ->
  result_of (ThaiDemo.demo_hierarchical_lookup net s w)
  = Raise (Exn KeyError "'id'")
  /\ sent (world_of (ThaiDemo.demo_hierarchical_lookup net s w))
     = (sent w ++ [provinces_request demo_api])%list.
Proof.
  intros Hok Hdata Hid.
  unfold ThaiDemo.demo_hierarchical_lookup.
  rewrite result_with_object, world_with_object.
  change (ThaiAdmin.init ThaiDemo.default_url) with demo_api.
  unfold ThaiDemo.hierarchical_lookup. rewrite !run_print.
  change (ThaiAdmin.get_provinces net) with (fetch net Provinces).
  match goal with
  | |- context [bind _ _ demo_api ?w'] =>
      assert (Hr := fetch_on_success net Provinces demo_api w' kvs Hok);
      assert (Hc := fetch_calls net Provinces demo_api w');
      assert (Hk := fetch_keeps net Provinces demo_api w')
  end.
  rewrite Hdata in Hr. cbn [sent] in Hc.
  rewrite !(run_bind_ret _ _ _ _ _ Hr), Hk. cbn [truthy negb].
  unfold ThaiDemo.print_province. unfold_run.
  cbn [slice_to firstn iter for_each PyMore.item]. rewrite Hid.
  cbn. split; [reflexivity | exact Hc].
Qed.

Lemma the_lookup_demo_raises_on_a_record_without_id_witness :
  result_of (ThaiDemo.demo_hierarchical_lookup
               (Fixtures.answering
                  (VDict [("success", VBool true);
                          ("data", VList [VDict [("name_th", VStr "กรุงเทพมหานคร")]])]))
               tt fresh)
  = Raise (Exn KeyError "'id'")
  /\ sent (world_of (ThaiDemo.demo_hierarchical_lookup
                       (Fixtures.answering
                          (VDict [("success", VBool true);
                                  ("data", VList [VDict [("name_th", VStr "กรุงเทพมหานคร")]])]))
                       tt fresh))
     = ([] ++ [provinces_request demo_api])%list.
Proof.
  apply (the_lookup_demo_raises_on_a_record_without_id
           (Fixtures.answering
              (VDict [("success", VBool true);
                      ("data", VList [VDict [("name_th", VStr "กรุงเทพมหานคร")]])]))
           unit tt fresh
           [("success", VBool true);
            ("data", VList [VDict [("name_th", VStr "กรุงเทพมหานคร")]])]
           [("name_th", VStr "กรุงเทพมหานคร")] []); try reflexivity.
  eexists. repeat split; reflexivity.
Defined.

(** X25. The search keeps the order of the service: on records that are
    mappings with a Thai name, the comprehension of [demo_search_by_name]
    returns exactly the records whose name contains the term, in the order
    in which they arrived, and touches nothing else (no call, no line, the
    client unchanged). *)
Theorem the_search_filters_in_order
  (term : string) (provinces : list value)
  (api : ThaiAdmin.ThaiAdminAPI) (w : world) :
  Forall has_thai_name provinces ->
  ThaiDemo.matching term provinces api w
  = (Ret (filter (named_like term) provinces), api, w).
Proof.
  intros H. induction H as [|p rest (kvs & name & -> & Hname) _ IH].
  - reflexivity.
  - cbn [ThaiDemo.matching filter named_like PyMore.item]. rewrite Hname.
    unfold_run. cbn. unfold bind in IH. rewrite IH.
    destruct (PyMore.occurs term name); reflexivity.
Qed.

Lemma the_search_filters_in_order_witness :
  ThaiDemo.matching "เชียง"
    [VDict [("id", VInt 1); ("name_th", VStr "กรุงเทพมหานคร")];
     VDict [("id", VInt 38); ("name_th", VStr "เชียงใหม่")];
     VDict [("id", VInt 45); ("name_th", VStr "เชียงราย")]]
    demo_api fresh
  = (Ret (filter (named_like "เชียง")
            [VDict [("id", VInt 1); ("name_th", VStr "กรุงเทพมหานคร")];
             VDict [("id", VInt 38); ("name_th", VStr "เชียงใหม่")];
             VDict [("id", VInt 45); ("name_th", VStr "เชียงราย")]]),
     demo_api, fresh).
Proof.
  apply (the_search_filters_in_order "เชียง"
           [VDict [("id", VInt 1); ("name_th", VStr "กรุงเทพมหานคร")];
            VDict [("id", VInt 38); ("name_th", VStr "เชียงใหม่")];
            VDict [("id", VInt 45); ("name_th", VStr "เชียงราย")]]
           demo_api fresh).
  repeat constructor; eexists _, _; split; reflexivity.
Defined.
